(** * The Dallas 1-wire bus driver of mmculib (u1wire.c)

    A shallow embedding of [src/mmculib/u1wire/u1wire.c].  The driver
    is bit-banged: every routine is a fixed sequence of pin
    reconfigurations, busy-wait delays, pin samples and interrupt
    mask changes.  The embedding threads an explicit [bus] state
    through every routine; the state records the pin configuration,
    the interrupt mask, the memory the buffer pointers range over,
    the levels the line will show at the successive samples, and the
    chronological trace of everything done to the outside world. *)

From Stdlib Require Import ZArith List Bool Lia.
Import ListNotations.
Open Scope Z_scope.

(** ** Machine integers *)

(** Conversion to [uint8_t]. *)
Definition to_uint8 (z : Z) : Z := z mod 256.

(** Conversion to [int8_t] (two's complement, as gcc defines the
    conversion of a value the type cannot represent). *)
Definition to_int8 (z : Z) : Z := (z + 128) mod 256 - 128.

(** Modelled from the spec: [BIT] is a macro of config.h, which is not
    part of the sources at hand.  The spec has the byte read compose its
    result "by shifting in from the top", so [BIT (7)] is the top bit of
    a byte, [1 << 7]. *)
Definition BIT (n : Z) : Z := Z.shiftl 1 n.

(** ** The outside world *)

Inductive pio_config_t : Set :=
| PIO_CONFIG_PULLUP
| PIO_CONFIG_OUTPUT_LOW.

(** What the driver does to the pin, the clock and the interrupt
    mask, in the order it does it. *)
Inductive event : Set :=
| EvConfig (c : pio_config_t)   (* pio_config_set (U1WIRE_PIO, c) *)
| EvDelay (us : Z)              (* DELAY_US (us) *)
| EvInput (level : bool)        (* pio_input_get (U1WIRE_PIO) *)
| EvIrq (enabled : bool).       (* irq_global_enable / irq_global_disable *)

Record bus : Type := mkBus {
  pin : pio_config_t;        (* current configuration of U1WIRE_PIO *)
  irq_enabled : bool;        (* global interrupt mask *)
  line : nat -> bool;        (* level of the line at the k-th sample *)
  samples : nat;             (* number of samples taken so far *)
  mem : Z -> Z;              (* byte-addressed memory *)
  trace : list event         (* what has been done, oldest first *)
}.

Definition log (e : event) (s : bus) : bus :=
  mkBus (pin s) (irq_enabled s) (line s) (samples s) (mem s) (trace s ++ [e]).

Definition pio_config_set (c : pio_config_t) (s : bus) : bus :=
  log (EvConfig c)
      (mkBus c (irq_enabled s) (line s) (samples s) (mem s) (trace s)).

Definition pio_input_get (s : bus) : bool * bus :=
  let level := line s (samples s) in
  (level,
   log (EvInput level)
       (mkBus (pin s) (irq_enabled s) (line s) (S (samples s)) (mem s) (trace s))).

Definition DELAY_US (us : Z) (s : bus) : bus := log (EvDelay us) s.

(** Modelled from the spec: irq.h is not part of the sources at hand.
    The spec's interrupt contract is a global mask that does not nest
    ("nestable only to depth 1"): masking clears it, unmasking sets
    it, whatever it was before. *)
Definition irq_global_disable (s : bus) : bus :=
  log (EvIrq false)
      (mkBus (pin s) false (line s) (samples s) (mem s) (trace s)).

Definition irq_global_enable (s : bus) : bus :=
  log (EvIrq true)
      (mkBus (pin s) true (line s) (samples s) (mem s) (trace s)).

Definition mem_store (p v : Z) (s : bus) : bus :=
  mkBus (pin s) (irq_enabled s) (line s) (samples s)
        (fun a => if a =? p then v else mem s a) (trace s).

(** ** u1wire.c *)

Definition U1WIRE_READ_ROM : Z := 0x33.
Definition U1WIRE_SKIP_ROM : Z := 0xcc.
Definition U1WIRE_MATCH_ROM : Z := 0x55.
Definition U1WIRE_RECALL : Z := 0xb8.

Definition U1WIRE_DELAY_OFFSET : Z := 6.
Definition U1WIRE_ADDR_BYTES : Z := 6.

Definition U1WIRE_RELEASE : bus -> bus := pio_config_set PIO_CONFIG_PULLUP.
Definition U1WIRE_DRIVE : bus -> bus := pio_config_set PIO_CONFIG_OUTPUT_LOW.
Definition U1WIRE_TEST : bus -> bool * bus := pio_input_get.

(** Modelled from the spec: u1wire.h, which declares the device
    structure, is not part of the sources at hand.  In the spec's data
    model a device holds one ROM code of 8 bytes (family, six bytes of
    serial number, CRC) and nothing else: [&dev->rom_code] is the
    address of the device object and [sizeof (dev->rom_code)] is 8. *)
Definition rom_code_addr (dev : Z) : Z := dev.
Definition ROM_CODE_SIZE : Z := 8.

(** u1wire_bit_write *)
Definition u1wire_bit_write (value : Z) (s : bus) : bus :=
  let s := irq_global_disable s in
  let s := U1WIRE_DRIVE s in
  let s := DELAY_US (10 - U1WIRE_DELAY_OFFSET) s in
  let s := if negb (value =? 0) then U1WIRE_RELEASE s else s in
  let s := DELAY_US (60 - U1WIRE_DELAY_OFFSET) s in
  let s := U1WIRE_RELEASE s in
  irq_global_enable s.

(** The body of the loop of u1wire_byte_write, [n] iterations to go. *)
Fixpoint u1wire_byte_write_loop (n : nat) (value : Z) (s : bus) : bus :=
  match n with
  | O => s
  | S n' =>
      let s := u1wire_bit_write (Z.land value 0x01) s in
      u1wire_byte_write_loop n' (Z.shiftr value 1) s
  end.

(** u1wire_byte_write: [for (i = 0; i < 8; i++)]. *)
Definition u1wire_byte_write (value : Z) (s : bus) : bus :=
  u1wire_byte_write_loop 8 value s.

(** u1wire_bit_read *)
Definition u1wire_bit_read (s : bus) : Z * bus :=
  let s := irq_global_disable s in
  let s := U1WIRE_DRIVE s in
  let s := DELAY_US (2 - 1) s in
  let s := U1WIRE_RELEASE s in
  let s := DELAY_US (12 - U1WIRE_DELAY_OFFSET) s in
  let (level, s) := U1WIRE_TEST s in
  let value := Z.b2z level in
  let s := DELAY_US 60 s in
  let s := irq_global_enable s in
  (value, s).

(** The body of the loop of u1wire_byte_read, [n] iterations to go. *)
Fixpoint u1wire_byte_read_loop (n : nat) (value : Z) (s : bus) : Z * bus :=
  match n with
  | O => (value, s)
  | S n' =>
      let value := Z.shiftr value 1 in
      let (b, s) := u1wire_bit_read s in
      let value := if negb (b =? 0) then Z.lor value (BIT 7) else value in
      u1wire_byte_read_loop n' value s
  end.

(** u1wire_byte_read: [value = 0; for (i = 0; i < 8; i++)]. *)
Definition u1wire_byte_read (s : bus) : Z * bus :=
  u1wire_byte_read_loop 8 0 s.

(** The loop of u1wire_read.  The counter [i] is a [uint8_t] that
    stays below [size], so the test ends the loop within 256 rounds;
    [fuel] only makes the recursion structural. *)
Fixpoint u1wire_read_loop (fuel : nat) (i size buffer : Z) (s : bus)
  : Z * bus :=
  match fuel with
  | O => (i, s)
  | S fuel' =>
      if i <? size then
        let (v, s) := u1wire_byte_read s in
        let s := mem_store buffer v s in
        u1wire_read_loop fuel' (to_uint8 (i + 1)) size (buffer + 1) s
      else (i, s)
  end.

(** u1wire_read: the [uint8_t] counter is returned as an [int8_t]. *)
Definition u1wire_read (data size : Z) (s : bus) : Z * bus :=
  let (i, s) := u1wire_read_loop 256 0 size data s in
  (to_int8 i, s).

(** The loop of u1wire_write. *)
Fixpoint u1wire_write_loop (fuel : nat) (i size buffer : Z) (s : bus)
  : Z * bus :=
  match fuel with
  | O => (i, s)
  | S fuel' =>
      if i <? size then
        let s := u1wire_byte_write (mem s buffer) s in
        u1wire_write_loop fuel' (to_uint8 (i + 1)) size (buffer + 1) s
      else (i, s)
  end.

(** u1wire_write *)
Definition u1wire_write (data size : Z) (s : bus) : Z * bus :=
  let (i, s) := u1wire_write_loop 256 0 size data s in
  (to_int8 i, s).

(** u1wire_ready_p *)
Definition u1wire_ready_p (s : bus) : bool * bus :=
  let (v, s) := u1wire_bit_read s in (negb (v =? 0), s).

Section Reset.

(** The error numbers come from u1wire.h, which is not part of the
    sources at hand: they are parameters of everything that resets
    the bus. *)
Variables U1WIRE_ERR_BUS_LOW U1WIRE_ERR_BUS_HIGH U1WIRE_ERR_BUS_STUCK
          U1WIRE_ERR_PRESENCE_SHORT U1WIRE_ERR_PRESENCE_LONG : Z.

(** u1wire_reset *)
Definition u1wire_reset (s : bus) : Z * bus :=
  let s := U1WIRE_RELEASE s in
  let s := DELAY_US 5 s in
  let (t, s) := U1WIRE_TEST s in
  if negb t then (to_int8 (- U1WIRE_ERR_BUS_LOW), s) else
  let s := irq_global_disable s in
  let s := U1WIRE_DRIVE s in
  let s := DELAY_US 250 s in
  let (t, s) := U1WIRE_TEST s in
  if t then
    let s := U1WIRE_RELEASE s in
    let s := irq_global_enable s in
    (to_int8 (- U1WIRE_ERR_BUS_HIGH), s)
  else
  let s := DELAY_US 250 s in
  let s := U1WIRE_RELEASE s in
  let s := DELAY_US 10 s in
  let (t, s) := U1WIRE_TEST s in
  if negb t then
    let s := irq_global_enable s in
    (to_int8 (- U1WIRE_ERR_BUS_STUCK), s)
  else
  let s := DELAY_US 60 s in
  let (t, s) := U1WIRE_TEST s in
  if t then
    let s := irq_global_enable s in
    (0, s)
  else
  let s := DELAY_US 10 s in
  let (t, s) := U1WIRE_TEST s in
  if t then
    let s := irq_global_enable s in
    (to_int8 (- U1WIRE_ERR_PRESENCE_SHORT), s)
  else
  let s := DELAY_US 240 s in
  let (t, s) := U1WIRE_TEST s in
  if negb t then
    let s := irq_global_enable s in
    (to_int8 (- U1WIRE_ERR_PRESENCE_LONG), s)
  else
  let s := DELAY_US (480 - 240) s in
  let s := irq_global_enable s in
  (1, s).

(** u1wire_rom_code_read *)
Definition u1wire_rom_code_read (dev : Z) (s : bus) : Z * bus :=
  let (ret, s) := u1wire_reset s in
  if negb (ret =? 1) then (ret, s) else
  let s := u1wire_byte_write U1WIRE_READ_ROM s in
  let (_, s) := u1wire_read (rom_code_addr dev) ROM_CODE_SIZE s in
  let s := u1wire_byte_write U1WIRE_RECALL s in
  (1, s).

(** u1wire_command *)
Definition u1wire_command (dev command : Z) (s : bus) : Z * bus :=
  let (ret, s) := u1wire_reset s in
  if negb (ret =? 1) then (ret, s) else
  let s := u1wire_byte_write U1WIRE_MATCH_ROM s in
  let (_, s) := u1wire_write (rom_code_addr dev) ROM_CODE_SIZE s in
  let s := u1wire_byte_write command s in
  (1, s).

(** u1wire_broadcast *)
Definition u1wire_broadcast (command : Z) (s : bus) : Z * bus :=
  let (ret, s) := u1wire_reset s in
  if negb (ret =? 1) then (ret, s) else
  let s := u1wire_byte_write U1WIRE_SKIP_ROM s in
  let s := u1wire_byte_write command s in
  (1, s).

(** u1wire_init *)
Definition u1wire_init (device : Z) (s : bus) : Z * bus :=
  let s := U1WIRE_RELEASE s in
  u1wire_rom_code_read device s.

End Reset.

(** ** Observing a run *)

(** The events a call added to the trace: what [s'] has beyond [s]. *)
Definition emitted (s s' : bus) : list event :=
  skipn (length (trace s)) (trace s').

(** Time the pin spends configured as an output driven low, counted as
    the sum of the arguments of the delays made in that configuration;
    [cfg] is the configuration before the first event. *)
Fixpoint low_time (cfg : pio_config_t) (tr : list event) : Z :=
  match tr with
  | [] => 0
  | EvConfig c :: tr' => low_time c tr'
  | EvDelay us :: tr' =>
      match cfg with
      | PIO_CONFIG_OUTPUT_LOW => us + low_time cfg tr'
      | PIO_CONFIG_PULLUP => low_time cfg tr'
      end
  | _ :: tr' => low_time cfg tr'
  end.

(** A device's reading of a trace made of write slots only.  A slot is
    masked, opens with the line driven low and ends with its release;
    it carries a 1 when the line is released between the two delays
    and a 0 when it is held low through both. *)
Fixpoint decode_write_slots (tr : list event) : option (list bool) :=
  match tr with
  | [] => Some []
  | EvIrq false :: EvConfig PIO_CONFIG_OUTPUT_LOW :: EvDelay _
      :: EvConfig PIO_CONFIG_PULLUP
      :: EvDelay _ :: EvConfig PIO_CONFIG_PULLUP :: EvIrq true :: tr' =>
      option_map (cons true) (decode_write_slots tr')
  | EvIrq false :: EvConfig PIO_CONFIG_OUTPUT_LOW :: EvDelay _
      :: EvDelay _ :: EvConfig PIO_CONFIG_PULLUP :: EvIrq true :: tr' =>
      option_map (cons false) (decode_write_slots tr')
  | _ => None
  end.

(** The byte a device assembles from eight bits, first bit lowest. *)
Definition byte_of_bits (bs : list bool) : Z :=
  fold_right (fun b acc => Z.b2z b + 2 * acc) 0 bs.

(** Bits grouped into bytes, eight at a time. *)
Fixpoint bytes_of_bits (bs : list bool) : option (list Z) :=
  match bs with
  | [] => Some []
  | b0 :: b1 :: b2 :: b3 :: b4 :: b5 :: b6 :: b7 :: bs' =>
      option_map (cons (byte_of_bits [b0; b1; b2; b3; b4; b5; b6; b7]))
                 (bytes_of_bits bs')
  | _ => None
  end.

(** The bytes a device receives from a trace of write slots. *)
Definition decode_written_bytes (tr : list event) : option (list Z) :=
  match decode_write_slots tr with
  | Some bs => bytes_of_bits bs
  | None => None
  end.

(** The values of [n] successive calls of u1wire_byte_read from [s]. *)
Fixpoint bytes_answered (n : nat) (s : bus) : list Z :=
  match n with
  | O => []
  | S n' => let (v, s') := u1wire_byte_read s in v :: bytes_answered n' s'
  end.

(** The bytes of memory at [p], [p + 1], ..., [n] of them. *)
Fixpoint mem_bytes (m : Z -> Z) (p : Z) (n : nat) : list Z :=
  match n with
  | O => []
  | S n' => m p :: mem_bytes m (p + 1) n'
  end.

(** The level the line of [s] shows at the [k]-th sample from now. *)
Definition sampled (s : bus) (k : nat) : bool := line s (samples s + k).

(** The line plays back [bits] at the next samples of [s]. *)
Definition loopback (s : bus) (bits : list bool) : Prop :=
  forall k, (k < length bits)%nat ->
            line s (samples s + k) = nth k bits false.

(** An idle bus: pin released, interrupts enabled, memory zeroed, and
    a line that shows [levels] at the first samples and floats high
    afterwards. *)
Definition idle_bus (levels : list bool) : bus :=
  mkBus PIO_CONFIG_PULLUP true (fun k => nth k levels true) 0
        (fun _ => 0) [].

(** The same bus entered with interrupts masked by the caller. *)
Definition masked_bus (levels : list bool) : bus :=
  mkBus PIO_CONFIG_PULLUP false (fun k => nth k levels true) 0
        (fun _ => 0) [].

(** ** The wire format of the bit slots *)

(** Events of one write slot carrying [b]. *)
Definition write_slot (b : bool) : list event :=
  [EvIrq false; EvConfig PIO_CONFIG_OUTPUT_LOW; EvDelay 4]
    ++ (if b then [EvConfig PIO_CONFIG_PULLUP] else [])
    ++ [EvDelay 54; EvConfig PIO_CONFIG_PULLUP; EvIrq true].

(** Events of one read slot in which the line showed [b]. *)
Definition read_slot (b : bool) : list event :=
  [EvIrq false; EvConfig PIO_CONFIG_OUTPUT_LOW; EvDelay 1;
   EvConfig PIO_CONFIG_PULLUP; EvDelay 6; EvInput b; EvDelay 60;
   EvIrq true].

(** The low [n] bits of [v], lowest first. *)
Fixpoint bits_lsb (n : nat) (v : Z) : list bool :=
  match n with
  | O => []
  | S n' => Z.odd v :: bits_lsb n' (Z.shiftr v 1)
  end.

(** The next [n] levels of the line of [s], from sample [k] on. *)
Fixpoint levels (ln : nat -> bool) (k n : nat) : list bool :=
  match n with
  | O => []
  | S n' => ln k :: levels ln (S k) n'
  end.

(** What u1wire_byte_read_loop makes of the levels it samples. *)
Definition shift_in (value : Z) (bs : list bool) : Z :=
  fold_left (fun acc (b : bool) =>
               if b then Z.lor (Z.shiftr acc 1) 128 else Z.shiftr acc 1)
            bs value.

(** The bytes [n] successive byte reads assemble from a line [ln]
    sampled from [k] on. *)
Fixpoint answered (ln : nat -> bool) (k n : nat) : list Z :=
  match n with
  | O => []
  | S n' => shift_in 0 (levels ln k 8) :: answered ln (k + 8) n'
  end.

(** [n] rounds of the loop of u1wire_read, without its counter. *)
Fixpoint read_bytes (n : nat) (buffer : Z) (s : bus) : bus :=
  match n with
  | O => s
  | S n' =>
      let (v, s) := u1wire_byte_read s in
      let s := mem_store buffer v s in
      read_bytes n' (buffer + 1) s
  end.

(** [n] rounds of the loop of u1wire_write, without its counter. *)
Fixpoint write_bytes (n : nat) (buffer : Z) (s : bus) : bus :=
  match n with
  | O => s
  | S n' =>
      let s := u1wire_byte_write (mem s buffer) s in
      write_bytes n' (buffer + 1) s
  end.

(** The levels of a successful reset: high, low while driven, high on
    release, a presence pulse over two samples, then high. *)
Definition presence : list bool := [true; false; true; false; false; true].

(** A rom code and the bus on which a lone device answers it to a
    discovery and is present again for the next reset. *)
Definition rom_28 : list Z := [0x28; 0x01; 0x02; 0x03; 0x04; 0x05; 0x06; 0x9a].

Definition discovery_bus : bus :=
  idle_bus (presence ++ flat_map (bits_lsb 8) rom_28 ++ presence).

(** ** Further observations of a trace *)

(** Total of the delays of a trace. *)
Fixpoint duration (tr : list event) : Z :=
  match tr with
  | [] => 0
  | EvDelay us :: tr' => us + duration tr'
  | _ :: tr' => duration tr'
  end.

(** Delay elapsed in a trace before its first sample of the line. *)
Fixpoint sample_time (tr : list event) : option Z :=
  match tr with
  | [] => None
  | EvInput _ :: _ => Some 0
  | EvDelay us :: tr' => option_map (Z.add us) (sample_time tr')
  | _ :: tr' => sample_time tr'
  end.

(** The critical sections of a trace, followed from a state
    [(masked, driven)]: the driver masks interrupts only when it has
    not masked them already, drives the pin low only inside a masked
    section, and unmasks only inside a masked section whose pin it
    has released.  [None] when the trace breaks one of these. *)
Fixpoint critical_run (masked driven : bool) (tr : list event)
  : option (bool * bool) :=
  match tr with
  | [] => Some (masked, driven)
  | EvIrq false :: tr' =>
      if masked then None else critical_run true driven tr'
  | EvIrq true :: tr' =>
      if masked && negb driven then critical_run false driven tr' else None
  | EvConfig PIO_CONFIG_OUTPUT_LOW :: tr' =>
      if masked then critical_run masked true tr' else None
  | EvConfig PIO_CONFIG_PULLUP :: tr' => critical_run masked false tr'
  | _ :: tr' => critical_run masked driven tr'
  end.

(** A trace that starts and ends outside any critical section, with
    the pin not driven. *)
Definition critical_ok (tr : list event) : Prop :=
  critical_run false false tr = Some (false, false).

(** The events of u1wire_reset on a line that shows [l 0], [l 1], ...
    at its successive samples. *)
Definition reset_events (l : nat -> bool) : list event :=
  [EvConfig PIO_CONFIG_PULLUP; EvDelay 5; EvInput (l 0%nat)] ++
  (if negb (l 0%nat) then [] else
   [EvIrq false; EvConfig PIO_CONFIG_OUTPUT_LOW; EvDelay 250;
    EvInput (l 1%nat)] ++
   (if l 1%nat then [EvConfig PIO_CONFIG_PULLUP; EvIrq true] else
    [EvDelay 250; EvConfig PIO_CONFIG_PULLUP; EvDelay 10;
     EvInput (l 2%nat)] ++
    (if negb (l 2%nat) then [EvIrq true] else
     [EvDelay 60; EvInput (l 3%nat)] ++
     (if l 3%nat then [EvIrq true] else
      [EvDelay 10; EvInput (l 4%nat)] ++
      (if l 4%nat then [EvIrq true] else
       [EvDelay 240; EvInput (l 5%nat)] ++
       (if negb (l 5%nat) then [EvIrq true] else
        [EvDelay 240; EvIrq true])))))).

(** The number of samples u1wire_reset takes on such a line. *)
Definition reset_samples (l : nat -> bool) : nat :=
  if negb (l 0%nat) then 1 else
  if l 1%nat then 2 else
  if negb (l 2%nat) then 3 else
  if l 3%nat then 4 else
  if l 4%nat then 5 else 6.

Section ResetReturn.

Variables U1WIRE_ERR_BUS_LOW U1WIRE_ERR_BUS_HIGH U1WIRE_ERR_BUS_STUCK
          U1WIRE_ERR_PRESENCE_SHORT U1WIRE_ERR_PRESENCE_LONG : Z.

(** The value u1wire_reset returns on such a line. *)
Definition reset_return (l : nat -> bool) : Z :=
  if negb (l 0%nat) then to_int8 (- U1WIRE_ERR_BUS_LOW) else
  if l 1%nat then to_int8 (- U1WIRE_ERR_BUS_HIGH) else
  if negb (l 2%nat) then to_int8 (- U1WIRE_ERR_BUS_STUCK) else
  if l 3%nat then 0 else
  if l 4%nat then to_int8 (- U1WIRE_ERR_PRESENCE_SHORT) else
  if negb (l 5%nat) then to_int8 (- U1WIRE_ERR_PRESENCE_LONG) else 1.

End ResetReturn.

(** An idle bus whose memory holds [bytes] from address 0 on. *)
Definition stored_bus (bytes : list Z) (levels : list bool) : bus :=
  mkBus PIO_CONFIG_PULLUP true (fun k => nth k levels true) 0
        (fun a => nth (Z.to_nat a) bytes 0) [].

(** The values the doc comments of u1wire.c give to a return: 1 if
    OK, 0 if no device is responding, negative if error. *)
Definition documented_return (r : Z) : Prop :=
  r = 1 \/ r = 0 \/ -128 <= r < 0.

(** The bit positions of a byte, lowest first. *)
Definition bit_positions : list nat := seq 0 8.

(** ** Basic facts *)

(** Unfolds the pin, clock and mask primitives down to the record. *)
Ltac unfold_bus :=
  cbv beta iota zeta delta
    [U1WIRE_RELEASE U1WIRE_DRIVE U1WIRE_TEST DELAY_US
     irq_global_enable irq_global_disable pio_config_set
     pio_input_get log pin irq_enabled line samples mem trace negb].

Lemma emitted_app (s s' : bus) (evs : list event) :
  trace s' = trace s ++ evs -> emitted s s' = evs.
Proof.
  intros H. unfold emitted. rewrite H.
  rewrite skipn_app, skipn_all, Nat.sub_diag. reflexivity.
Qed.

Lemma emitted_refl (s : bus) : emitted s s = [].
Proof. apply emitted_app. now rewrite app_nil_r. Qed.

Lemma land_1_odd (v : Z) : negb (Z.land v 1 =? 0) = Z.odd v.
Proof.
  change 1 with (Z.ones 1). rewrite Z.land_ones by lia.
  rewrite Zmod_odd. now destruct (Z.odd v).
Qed.

Lemma to_int8_small (z : Z) : -128 <= z < 128 -> to_int8 z = z.
Proof. intros H. unfold to_int8. rewrite Z.mod_small; lia. Qed.

Lemma to_uint8_small (z : Z) : 0 <= z < 256 -> to_uint8 z = z.
Proof. intros H. unfold to_uint8. now rewrite Z.mod_small. Qed.

(** A check made on every number below [n] holds of each of them. *)
Lemma forall_below (P : Z -> bool) (n : nat) :
  forallb P (map Z.of_nat (seq 0 n)) = true ->
  forall v, 0 <= v < Z.of_nat n -> P v = true.
Proof.
  intros H v Hv. rewrite forallb_forall in H. apply H.
  apply in_map_iff. exists (Z.to_nat v). split; [lia|].
  apply in_seq. lia.
Qed.

(** *** Bit slots *)

Lemma u1wire_bit_write_eq (value : Z) (s : bus) :
  u1wire_bit_write value s =
  mkBus PIO_CONFIG_PULLUP true (line s) (samples s) (mem s)
        (trace s ++ write_slot (negb (value =? 0))).
Proof.
  unfold u1wire_bit_write, write_slot.
  destruct (value =? 0); unfold_bus; rewrite <- ?app_assoc; reflexivity.
Qed.

Lemma u1wire_bit_read_eq (s : bus) :
  u1wire_bit_read s =
  (Z.b2z (line s (samples s)),
   mkBus PIO_CONFIG_PULLUP true (line s) (S (samples s)) (mem s)
         (trace s ++ read_slot (line s (samples s)))).
Proof.
  unfold u1wire_bit_read, read_slot. unfold_bus.
  rewrite <- ?app_assoc. reflexivity.
Qed.

Lemma decode_write_slot_app (b : bool) (tr : list event) :
  decode_write_slots (write_slot b ++ tr) =
  option_map (cons b) (decode_write_slots tr).
Proof. destruct b; reflexivity. Qed.

Lemma decode_write_slots_bits (bs : list bool) :
  decode_write_slots (flat_map write_slot bs) = Some bs.
Proof.
  induction bs as [|b bs IH]; [reflexivity|].
  cbn [flat_map]. rewrite decode_write_slot_app, IH. reflexivity.
Qed.

(** *** Bytes *)

Lemma u1wire_byte_write_loop_eq (n : nat) : forall (value : Z) (s : bus),
  n <> O ->
  u1wire_byte_write_loop n value s =
  mkBus PIO_CONFIG_PULLUP true (line s) (samples s) (mem s)
        (trace s ++ flat_map write_slot (bits_lsb n value)).
Proof.
  induction n as [|n IH]; intros value s Hn; [congruence|].
  cbn [u1wire_byte_write_loop bits_lsb flat_map].
  rewrite u1wire_bit_write_eq, land_1_odd.
  destruct n as [|n].
  - cbn [u1wire_byte_write_loop bits_lsb flat_map]. now rewrite app_nil_r.
  - rewrite IH by congruence. cbn [line samples mem trace].
    now rewrite <- app_assoc.
Qed.

Lemma u1wire_byte_write_eq (value : Z) (s : bus) :
  u1wire_byte_write value s =
  mkBus PIO_CONFIG_PULLUP true (line s) (samples s) (mem s)
        (trace s ++ flat_map write_slot (bits_lsb 8 value)).
Proof. apply u1wire_byte_write_loop_eq. congruence. Qed.

Lemma u1wire_byte_write_mem (value : Z) (s : bus) :
  mem (u1wire_byte_write value s) = mem s.
Proof. now rewrite u1wire_byte_write_eq. Qed.

Lemma u1wire_byte_write_trace (value : Z) (s : bus) :
  trace (u1wire_byte_write value s) =
  trace s ++ flat_map write_slot (bits_lsb 8 value).
Proof. now rewrite u1wire_byte_write_eq. Qed.

Lemma u1wire_byte_read_loop_eq (n : nat) : forall (value : Z) (s : bus),
  n <> O ->
  u1wire_byte_read_loop n value s =
  (shift_in value (levels (line s) (samples s) n),
   mkBus PIO_CONFIG_PULLUP true (line s) (samples s + n) (mem s)
         (trace s ++ flat_map read_slot (levels (line s) (samples s) n))).
Proof.
  induction n as [|n IH]; intros value s Hn; [congruence|].
  cbn [u1wire_byte_read_loop levels flat_map].
  rewrite u1wire_bit_read_eq.
  assert (Hv : (if negb (Z.b2z (line s (samples s)) =? 0)
                then Z.lor (Z.shiftr value 1) (BIT 7)
                else Z.shiftr value 1) =
               shift_in value [line s (samples s)]).
  { now destruct (line s (samples s)). }
  rewrite Hv. clear Hv.
  destruct n as [|n].
  - cbn [u1wire_byte_read_loop levels flat_map].
    rewrite Nat.add_1_r, app_nil_r. reflexivity.
  - rewrite IH by congruence. cbn [line samples mem trace].
    rewrite <- app_assoc.
    replace (S (samples s) + S n)%nat with (samples s + S (S n))%nat by lia.
    reflexivity.
Qed.

Lemma u1wire_byte_read_eq (s : bus) :
  u1wire_byte_read s =
  (shift_in 0 (levels (line s) (samples s) 8),
   mkBus PIO_CONFIG_PULLUP true (line s) (samples s + 8) (mem s)
         (trace s ++ flat_map read_slot (levels (line s) (samples s) 8))).
Proof. apply u1wire_byte_read_loop_eq. congruence. Qed.

Lemma levels_length (ln : nat -> bool) (n : nat) :
  forall k, length (levels ln k n) = n.
Proof. induction n as [|n IH]; intros k; cbn; [|rewrite IH]; reflexivity. Qed.

Lemma levels_loopback (s : bus) (bits : list bool) :
  loopback s bits -> levels (line s) (samples s) (length bits) = bits.
Proof.
  unfold loopback. generalize (samples s) as k.
  induction bits as [|b bits IH]; intros k H; [reflexivity|].
  cbn [levels length]. f_equal.
  - specialize (H O). rewrite Nat.add_0_r in H. apply H. cbn. lia.
  - apply IH. intros j Hj. specialize (H (S j)).
    rewrite Nat.add_succ_r in H. apply H. cbn. lia.
Qed.

Lemma bits_lsb_length (n : nat) : forall v, length (bits_lsb n v) = n.
Proof. induction n as [|n IH]; intros v; cbn; [|rewrite IH]; reflexivity. Qed.

(** What is shifted in from the top over eight reads is the byte
    whose bits were sent lowest first. *)
Lemma shift_in_bits_lsb (v : Z) :
  0 <= v < 256 -> shift_in 0 (bits_lsb 8 v) = v.
Proof.
  intros Hv. apply Z.eqb_eq.
  apply (forall_below (fun v => shift_in 0 (bits_lsb 8 v) =? v) 256);
    [vm_compute; reflexivity | lia].
Qed.

Lemma byte_of_bits_lsb (v : Z) :
  0 <= v < 256 -> byte_of_bits (bits_lsb 8 v) = v.
Proof.
  intros Hv. apply Z.eqb_eq.
  apply (forall_below (fun v => byte_of_bits (bits_lsb 8 v) =? v) 256);
    [vm_compute; reflexivity | lia].
Qed.

(** A byte read is a [uint8_t]. *)
Lemma shift_in_byte_range (bs : list bool) :
  length bs = 8%nat -> 0 <= shift_in 0 bs < 256.
Proof.
  intros H.
  do 8 (destruct bs as [|[] bs]; [discriminate|..]);
    (destruct bs; [|discriminate]); vm_compute; split; congruence.
Qed.

(** *** Buffers *)

Lemma u1wire_read_loop_eq (n : nat) :
  forall (fuel : nat) (i size buffer : Z) (s : bus),
  0 <= i -> size <= 255 -> size - i = Z.of_nat n -> (n < fuel)%nat ->
  u1wire_read_loop fuel i size buffer s = (size, read_bytes n buffer s).
Proof.
  induction n as [|n IH]; intros fuel i size buffer s Hi Hs Hn Hf;
    (destruct fuel as [|fuel]; [lia|]); cbn [u1wire_read_loop read_bytes].
  - replace (i <? size) with false by (symmetry; apply Z.ltb_ge; lia).
    f_equal. lia.
  - replace (i <? size) with true by (symmetry; apply Z.ltb_lt; lia).
    destruct (u1wire_byte_read s) as [v s1].
    rewrite to_uint8_small by lia. apply IH; lia.
Qed.

Lemma u1wire_write_loop_eq (n : nat) :
  forall (fuel : nat) (i size buffer : Z) (s : bus),
  0 <= i -> size <= 255 -> size - i = Z.of_nat n -> (n < fuel)%nat ->
  u1wire_write_loop fuel i size buffer s = (size, write_bytes n buffer s).
Proof.
  induction n as [|n IH]; intros fuel i size buffer s Hi Hs Hn Hf;
    (destruct fuel as [|fuel]; [lia|]); cbn [u1wire_write_loop write_bytes].
  - replace (i <? size) with false by (symmetry; apply Z.ltb_ge; lia).
    f_equal. lia.
  - replace (i <? size) with true by (symmetry; apply Z.ltb_lt; lia).
    rewrite to_uint8_small by lia. apply IH; lia.
Qed.

Lemma u1wire_read_eq (data size : Z) (s : bus) :
  0 <= size <= 255 ->
  u1wire_read data size s =
  (to_int8 size, read_bytes (Z.to_nat size) data s).
Proof.
  intros H. unfold u1wire_read.
  rewrite (u1wire_read_loop_eq (Z.to_nat size)) by lia. reflexivity.
Qed.

Lemma u1wire_write_eq (data size : Z) (s : bus) :
  0 <= size <= 255 ->
  u1wire_write data size s =
  (to_int8 size, write_bytes (Z.to_nat size) data s).
Proof.
  intros H. unfold u1wire_write.
  rewrite (u1wire_write_loop_eq (Z.to_nat size)) by lia. reflexivity.
Qed.

(** More fuel than the 256 rounds a [uint8_t] counter allows changes
    nothing: the loops end by their own test. *)
Lemma u1wire_read_loop_fuel (fuel : nat) (data size : Z) (s : bus) :
  0 <= size <= 255 -> (256 <= fuel)%nat ->
  u1wire_read_loop fuel 0 size data s = u1wire_read_loop 256 0 size data s.
Proof.
  intros H Hf.
  rewrite !(u1wire_read_loop_eq (Z.to_nat size)) by lia. reflexivity.
Qed.

Lemma u1wire_write_loop_fuel (fuel : nat) (data size : Z) (s : bus) :
  0 <= size <= 255 -> (256 <= fuel)%nat ->
  u1wire_write_loop fuel 0 size data s = u1wire_write_loop 256 0 size data s.
Proof.
  intros H Hf.
  rewrite !(u1wire_write_loop_eq (Z.to_nat size)) by lia. reflexivity.
Qed.

(** The bus after [n] bytes were read into memory at [buffer]. *)
Lemma read_bytes_frame (n : nat) : forall (buffer : Z) (s : bus),
  line (read_bytes n buffer s) = line s /\
  samples (read_bytes n buffer s) = (samples s + 8 * n)%nat /\
  (forall a, a < buffer -> mem (read_bytes n buffer s) a = mem s a) /\
  mem_bytes (mem (read_bytes n buffer s)) buffer n =
  answered (line s) (samples s) n.
Proof.
  induction n as [|n IH]; intros buffer s; cbn [read_bytes].
  - repeat split; cbn; lia.
  - rewrite u1wire_byte_read_eq.
    match goal with |- context [read_bytes n ?b ?s1] =>
      destruct (IH b s1) as (Hl & Hs & Hm & Hb) end.
    cbn [line samples mem mem_store] in *.
    repeat split.
    + exact Hl.
    + rewrite Hs. lia.
    + intros a Ha. rewrite Hm by lia.
      replace (a =? buffer) with false by (symmetry; apply Z.eqb_neq; lia).
      reflexivity.
    + cbn [mem_bytes answered]. rewrite Hb, Hm by lia.
      rewrite Z.eqb_refl. reflexivity.
Qed.

Lemma read_bytes_trace (n : nat) : forall (buffer : Z) (s : bus),
  trace (read_bytes n buffer s) =
  trace s ++ flat_map read_slot (levels (line s) (samples s) (8 * n)).
Proof.
  induction n as [|n IH]; intros buffer s; cbn [read_bytes].
  - cbn. now rewrite app_nil_r.
  - rewrite u1wire_byte_read_eq, IH. cbn [line samples mem trace mem_store].
    rewrite <- app_assoc. f_equal.
    replace (8 * S n)%nat with (8 + 8 * n)%nat by lia.
    generalize (8 * n)%nat as m. intros m.
    generalize (samples s) as k. intros k.
    do 8 (cbn [levels flat_map Nat.add]; rewrite <- ?app_assoc;
          try (f_equal; [])).
    rewrite app_nil_l.
    repeat f_equal; lia.
Qed.

(** The bus after [n] bytes were written from memory at [buffer]. *)
Lemma write_bytes_eq (n : nat) : forall (buffer : Z) (s : bus),
  line (write_bytes n buffer s) = line s /\
  samples (write_bytes n buffer s) = samples s /\
  mem (write_bytes n buffer s) = mem s /\
  trace (write_bytes n buffer s) =
  trace s ++ flat_map write_slot
                      (flat_map (bits_lsb 8) (mem_bytes (mem s) buffer n)).
Proof.
  induction n as [|n IH]; intros buffer s; cbn [write_bytes].
  - repeat split. cbn. now rewrite app_nil_r.
  - rewrite u1wire_byte_write_eq.
    match goal with |- context [write_bytes n ?b ?s1] =>
      destruct (IH b s1) as (Hl & Hs & Hm & Ht) end.
    cbn [line samples mem trace] in *.
    repeat split; try assumption.
    rewrite Ht. cbn [mem_bytes flat_map].
    rewrite flat_map_app, <- app_assoc. reflexivity.
Qed.

Lemma bytes_answered_eq (n : nat) : forall s : bus,
  bytes_answered n s = answered (line s) (samples s) n.
Proof.
  induction n as [|n IH]; intros s; cbn [bytes_answered answered];
    [reflexivity|].
  rewrite u1wire_byte_read_eq, IH. reflexivity.
Qed.

Lemma bytes_answered_length (n : nat) : forall s : bus,
  length (bytes_answered n s) = n.
Proof.
  induction n as [|n IH]; intros s; cbn [bytes_answered]; [reflexivity|].
  rewrite u1wire_byte_read_eq. cbn [length]. now rewrite IH.
Qed.

Lemma answered_range (ln : nat -> bool) (n : nat) : forall k,
  Forall (fun b => 0 <= b < 256) (answered ln k n).
Proof.
  induction n as [|n IH]; intros k; cbn [answered]; constructor.
  - apply shift_in_byte_range, levels_length.
  - apply IH.
Qed.

Lemma bytes_of_bits_app (b : Z) (bs : list bool) :
  bytes_of_bits (bits_lsb 8 b ++ bs) =
  option_map (cons (byte_of_bits (bits_lsb 8 b))) (bytes_of_bits bs).
Proof. reflexivity. Qed.

(** Bytes sent lowest bit first are the bytes a device assembles. *)
Lemma bytes_of_bits_lsb (bytes : list Z) :
  Forall (fun b => 0 <= b < 256) bytes ->
  bytes_of_bits (flat_map (bits_lsb 8) bytes) = Some bytes.
Proof.
  induction 1 as [|b bytes Hb _ IH]; [reflexivity|].
  cbn [flat_map]. rewrite bytes_of_bits_app, IH, byte_of_bits_lsb by exact Hb.
  reflexivity.
Qed.

Lemma decode_written_bytes_slots (bytes : list Z) :
  Forall (fun b => 0 <= b < 256) bytes ->
  decode_written_bytes (flat_map write_slot (flat_map (bits_lsb 8) bytes)) =
  Some bytes.
Proof.
  intros H. unfold decode_written_bytes.
  rewrite decode_write_slots_bits. now apply bytes_of_bits_lsb.
Qed.

(** ** Bit order and slot timing *)

(** C1.  For every 8-bit value [v], the write slots u1wire_byte_write
    emits carry eight bits, and on any bus whose line plays those bits
    back at the next eight samples (a loopback), u1wire_byte_read
    returns [v]: lowest bit first on the way out, shifted in from the
    top on the way in. *)
Theorem byte_write_read_loopback (v : Z) (s s2 : bus) :
  0 <= v < 256 ->
  exists bits,
    decode_write_slots (emitted s (u1wire_byte_write v s)) = Some bits /\
    length bits = 8%nat /\
    (loopback s2 bits -> fst (u1wire_byte_read s2) = v).
Proof.
  intros Hv. exists (bits_lsb 8 v).
  rewrite (emitted_app s _ (flat_map write_slot (bits_lsb 8 v)))
    by (now rewrite u1wire_byte_write_eq).
  rewrite decode_write_slots_bits.
  split; [reflexivity|]. split; [apply bits_lsb_length|].
  intros Hloop. apply levels_loopback in Hloop.
  rewrite bits_lsb_length in Hloop.
  rewrite u1wire_byte_read_eq. cbn [fst]. rewrite Hloop.
  now apply shift_in_bits_lsb.
Qed.

Lemma bit_write_low_time_value (value : Z) (s : bus) :
  low_time (pin s) (emitted s (u1wire_bit_write value s)) =
  if value =? 0 then 58 else 4.
Proof.
  rewrite (emitted_app s _ (write_slot (negb (value =? 0))))
    by (now rewrite u1wire_bit_write_eq).
  destruct (value =? 0); reflexivity.
Qed.

(** C9.  With time counted as the sum of the delay arguments in the
    trace of one u1wire_bit_write call, the line is held driven low
    for strictly less time when the value written is 1 than when it
    is 0, and in both cases for at most the 60 microseconds of a
    slot; any non-zero value is written as a 1. *)
Theorem bit_write_low_time (s : bus) (value : Z) :
  low_time (pin s) (emitted s (u1wire_bit_write 1 s)) <
  low_time (pin s) (emitted s (u1wire_bit_write 0 s)) /\
  low_time (pin s) (emitted s (u1wire_bit_write 1 s)) <= 60 /\
  low_time (pin s) (emitted s (u1wire_bit_write 0 s)) <= 60 /\
  low_time (pin s) (emitted s (u1wire_bit_write value s)) =
  (if value =? 0
   then low_time (pin s) (emitted s (u1wire_bit_write 0 s))
   else low_time (pin s) (emitted s (u1wire_bit_write 1 s))).
Proof.
  rewrite !bit_write_low_time_value. cbn [Z.eqb].
  repeat split; try lia.
Qed.

(** ** Buffers *)

(** C10.  With size 0, u1wire_read and u1wire_write return 0 and leave
    the bus as it was: no event is added to the trace, no sample is
    taken and no byte of memory changes. *)
Theorem u1wire_read_write_size_zero (data : Z) (s : bus) :
  u1wire_read data 0 s = (0, s) /\
  u1wire_write data 0 s = (0, s) /\
  emitted s (snd (u1wire_read data 0 s)) = [] /\
  emitted s (snd (u1wire_write data 0 s)) = [] /\
  mem (snd (u1wire_read data 0 s)) = mem s /\
  samples (snd (u1wire_read data 0 s)) = samples s.
Proof.
  assert (Hr : u1wire_read data 0 s = (0, s)) by reflexivity.
  assert (Hw : u1wire_write data 0 s = (0, s)) by reflexivity.
  rewrite Hr, Hw. cbn [snd]. rewrite emitted_refl. repeat split.
Qed.

(** The count u1wire_read returns is the size taken as an [int8_t],
    and [size] bytes are read: eight samples each, stored from [data]
    on in the order the device answered them. *)
Lemma u1wire_read_count (data size : Z) (s : bus) :
  0 <= size <= 255 ->
  fst (u1wire_read data size s) = to_int8 size /\
  samples (snd (u1wire_read data size s)) =
    (samples s + 8 * Z.to_nat size)%nat /\
  mem_bytes (mem (snd (u1wire_read data size s))) data (Z.to_nat size) =
    answered (line s) (samples s) (Z.to_nat size).
Proof.
  intros H. rewrite u1wire_read_eq by assumption. cbn [fst snd].
  destruct (read_bytes_frame (Z.to_nat size) data s) as (_ & Hs & _ & Hb).
  auto.
Qed.

(** The count u1wire_write returns is the size taken as an [int8_t],
    and [size] bytes are written: the bytes of memory from [data] on,
    in order. *)
Lemma u1wire_write_count (data size : Z) (s : bus) :
  0 <= size <= 255 ->
  fst (u1wire_write data size s) = to_int8 size /\
  decode_write_slots (emitted s (snd (u1wire_write data size s))) =
    Some (flat_map (bits_lsb 8) (mem_bytes (mem s) data (Z.to_nat size))).
Proof.
  intros H. rewrite u1wire_write_eq by assumption. cbn [fst snd].
  destruct (write_bytes_eq (Z.to_nat size) data s) as (_ & _ & _ & Ht).
  rewrite (emitted_app _ _ _ Ht), decode_write_slots_bits. auto.
Qed.

(** C8, at size 200.  u1wire_read takes the 1600 samples of 200 bytes
    and u1wire_write emits the 1600 write slots of 200 bytes, yet both
    return -56: the count does not fit the [int8_t] they return. *)
Theorem u1wire_read_write_count_200 :
  fst (u1wire_read 0 200 (idle_bus [])) = -56 /\
  samples (snd (u1wire_read 0 200 (idle_bus []))) = 1600%nat /\
  fst (u1wire_write 0 200 (idle_bus [])) = -56 /\
  option_map (@length bool)
    (decode_write_slots
       (emitted (idle_bus []) (snd (u1wire_write 0 200 (idle_bus []))))) =
  Some 1600%nat.
Proof.
  destruct (u1wire_read_count 0 200 (idle_bus [])) as (Hr & Hs & _); [lia|].
  destruct (u1wire_write_count 0 200 (idle_bus [])) as (Hw & Hd); [lia|].
  rewrite Hr, Hs, Hw, Hd. repeat split.
Qed.

(** ** Reset and the operations built on it *)

Section ResetFacts.

Variables U1WIRE_ERR_BUS_LOW U1WIRE_ERR_BUS_HIGH U1WIRE_ERR_BUS_STUCK
          U1WIRE_ERR_PRESENCE_SHORT U1WIRE_ERR_PRESENCE_LONG : Z.

Local Abbreviation reset :=
  (u1wire_reset U1WIRE_ERR_BUS_LOW U1WIRE_ERR_BUS_HIGH U1WIRE_ERR_BUS_STUCK
                U1WIRE_ERR_PRESENCE_SHORT U1WIRE_ERR_PRESENCE_LONG).
Local Abbreviation rom_code_read :=
  (u1wire_rom_code_read U1WIRE_ERR_BUS_LOW U1WIRE_ERR_BUS_HIGH
     U1WIRE_ERR_BUS_STUCK U1WIRE_ERR_PRESENCE_SHORT U1WIRE_ERR_PRESENCE_LONG).
Local Abbreviation command :=
  (u1wire_command U1WIRE_ERR_BUS_LOW U1WIRE_ERR_BUS_HIGH
     U1WIRE_ERR_BUS_STUCK U1WIRE_ERR_PRESENCE_SHORT U1WIRE_ERR_PRESENCE_LONG).
Local Abbreviation broadcast :=
  (u1wire_broadcast U1WIRE_ERR_BUS_LOW U1WIRE_ERR_BUS_HIGH
     U1WIRE_ERR_BUS_STUCK U1WIRE_ERR_PRESENCE_SHORT U1WIRE_ERR_PRESENCE_LONG).
Local Abbreviation init :=
  (u1wire_init U1WIRE_ERR_BUS_LOW U1WIRE_ERR_BUS_HIGH
     U1WIRE_ERR_BUS_STUCK U1WIRE_ERR_PRESENCE_SHORT U1WIRE_ERR_PRESENCE_LONG).

(** The values u1wire_reset returns on its five fault paths. *)
Local Abbreviation fault_returns :=
  [to_int8 (- U1WIRE_ERR_BUS_LOW); to_int8 (- U1WIRE_ERR_BUS_HIGH);
   to_int8 (- U1WIRE_ERR_BUS_STUCK); to_int8 (- U1WIRE_ERR_PRESENCE_SHORT);
   to_int8 (- U1WIRE_ERR_PRESENCE_LONG)].

(** What u1wire.c documents of the error numbers: their negations are
    negative [int8_t] values, one per fault. *)
Hypothesis err_range :
  Forall (fun c => 0 < c <= 128)
         [U1WIRE_ERR_BUS_LOW; U1WIRE_ERR_BUS_HIGH; U1WIRE_ERR_BUS_STUCK;
          U1WIRE_ERR_PRESENCE_SHORT; U1WIRE_ERR_PRESENCE_LONG].
Hypothesis err_distinct :
  NoDup [U1WIRE_ERR_BUS_LOW; U1WIRE_ERR_BUS_HIGH; U1WIRE_ERR_BUS_STUCK;
         U1WIRE_ERR_PRESENCE_SHORT; U1WIRE_ERR_PRESENCE_LONG].

(** Case analysis on the six levels u1wire_reset may sample. *)
Ltac reset_paths s :=
  let ln := fresh "ln" in
  let k := fresh "k" in
  destruct s as [? ? ln k ? ?];
  unfold sampled in *;
  cbn [pin irq_enabled line samples mem trace] in *;
  rewrite ?Nat.add_succ_r, ?Nat.add_0_r in *;
  unfold u1wire_reset; unfold_bus;
  destruct (ln k);
  destruct (ln (S k));
  destruct (ln (S (S k)));
  destruct (ln (S (S (S k))));
  destruct (ln (S (S (S (S k)))));
  destruct (ln (S (S (S (S (S k))))));
  cbv beta iota zeta delta [negb fst snd pin irq_enabled].

(** One path of u1wire_reset, picked by hypotheses on the levels. *)
Ltac reset_path s :=
  destruct s;
  unfold sampled in *;
  cbn [pin irq_enabled line samples mem trace] in *;
  rewrite ?Nat.add_succ_r, ?Nat.add_0_r in *;
  unfold u1wire_reset; unfold_bus;
  repeat match goal with H : _ = _ :> bool |- _ => rewrite H; clear H end;
  cbv beta iota zeta delta [negb fst snd pin irq_enabled];
  repeat split;
  try (apply emitted_app; cbn [trace]; rewrite <- ?app_assoc; reflexivity).

(** The error numbers as plain arithmetic facts. *)
Ltac err_facts :=
  let R := fresh "R" in
  let D := fresh "D" in
  pose proof err_range as R; pose proof err_distinct as D;
  rewrite !Forall_cons_iff in R; rewrite !NoDup_cons_iff in D;
  cbn [In] in D;
  rewrite ?(to_int8_small (- U1WIRE_ERR_BUS_LOW)),
    ?(to_int8_small (- U1WIRE_ERR_BUS_HIGH)),
    ?(to_int8_small (- U1WIRE_ERR_BUS_STUCK)),
    ?(to_int8_small (- U1WIRE_ERR_PRESENCE_SHORT)),
    ?(to_int8_small (- U1WIRE_ERR_PRESENCE_LONG)) by lia.

(** C4.  When the line floats high at the first check, is low while
    driven, is high again after the release and is still high at the
    end of the response window, u1wire_reset returns 0, which is none
    of the values it returns for a fault. *)
Theorem reset_no_device (s : bus) :
  sampled s 0 = true -> sampled s 1 = false ->
  sampled s 2 = true -> sampled s 3 = true ->
  fst (reset s) = 0 /\ ~ In (fst (reset s)) fault_returns.
Proof.
  intros H0 H1 H2 H3.
  assert (Hr : fst (reset s) = 0).
  { revert H0 H1 H2 H3. reset_paths s; intros; congruence. }
  split; [exact Hr|]. rewrite Hr. cbn [In].
  pose proof err_range as R. rewrite !Forall_cons_iff in R.
  rewrite !to_int8_small by lia. lia.
Qed.

(** C6.  u1wire_reset returns the bus-low fault exactly when the line
    is low at the check made 5 microseconds after the first release;
    on that path the trace holds the release, the delay and the sample
    only, so interrupts are not masked and the line is not driven.
    It returns the bus-high fault exactly when the line was high at
    that check and is still high at the sample taken after 250
    microseconds of driving it low. *)
Theorem reset_bus_low_high (s : bus) :
  (fst (reset s) = to_int8 (- U1WIRE_ERR_BUS_LOW) <-> sampled s 0 = false) /\
  (sampled s 0 = false ->
   emitted s (snd (reset s)) =
     [EvConfig PIO_CONFIG_PULLUP; EvDelay 5; EvInput false] /\
   irq_enabled (snd (reset s)) = irq_enabled s) /\
  (fst (reset s) = to_int8 (- U1WIRE_ERR_BUS_HIGH) <->
   sampled s 0 = true /\ sampled s 1 = true) /\
  (sampled s 0 = true -> sampled s 1 = true ->
   emitted s (snd (reset s)) =
     [EvConfig PIO_CONFIG_PULLUP; EvDelay 5; EvInput true; EvIrq false;
      EvConfig PIO_CONFIG_OUTPUT_LOW; EvDelay 250; EvInput true;
      EvConfig PIO_CONFIG_PULLUP; EvIrq true]).
Proof.
  split; [|split; [|split]].
  - reset_paths s; err_facts; split; intros; try congruence; try lia;
      intuition congruence.
  - intros H0. reset_path s.
  - reset_paths s; err_facts; split; intros; try congruence; try lia;
      intuition congruence.
  - intros H0 H1. reset_path s.
Qed.

(** C5.  u1wire_reset returns the presence-too-short fault exactly
    when the earlier checks passed, the line is low at the end of the
    60 microsecond response window (a device answered) and it is high
    again at the sample 10 microseconds later; it returns the
    presence-too-long fault exactly when the line is still low at that
    sample and at the one a further 240 microseconds later.  The two
    values returned differ. *)
Theorem reset_presence_short_long (s : bus) :
  (fst (reset s) = to_int8 (- U1WIRE_ERR_PRESENCE_SHORT) <->
   sampled s 0 = true /\ sampled s 1 = false /\ sampled s 2 = true /\
   sampled s 3 = false /\ sampled s 4 = true) /\
  (fst (reset s) = to_int8 (- U1WIRE_ERR_PRESENCE_LONG) <->
   sampled s 0 = true /\ sampled s 1 = false /\ sampled s 2 = true /\
   sampled s 3 = false /\ sampled s 4 = false /\ sampled s 5 = false) /\
  to_int8 (- U1WIRE_ERR_PRESENCE_SHORT) <>
  to_int8 (- U1WIRE_ERR_PRESENCE_LONG) /\
  (sampled s 0 = true -> sampled s 1 = false -> sampled s 2 = true ->
   sampled s 3 = false ->
   exists evs,
     emitted s (snd (reset s)) =
       [EvConfig PIO_CONFIG_PULLUP; EvDelay 5; EvInput true; EvIrq false;
        EvConfig PIO_CONFIG_OUTPUT_LOW; EvDelay 250; EvInput false;
        EvDelay 250; EvConfig PIO_CONFIG_PULLUP; EvDelay 10; EvInput true;
        EvDelay 60; EvInput false; EvDelay 10; EvInput (sampled s 4)]
       ++ evs /\
     (sampled s 4 = true -> evs = [EvIrq true]) /\
     (sampled s 4 = false -> sampled s 5 = false ->
      evs = [EvDelay 240; EvInput false; EvIrq true])).
Proof.
  split; [|split; [|split]].
  - reset_paths s; err_facts; split; intros; try congruence; try lia;
      intuition congruence.
  - reset_paths s; err_facts; split; intros; try congruence; try lia;
      intuition congruence.
  - err_facts. lia.
  - intros H0 H1 H2 H3.
    destruct (sampled s 4) eqn:H4; [|destruct (sampled s 5) eqn:H5].
    + exists [EvIrq true]. split; [|split; intros; congruence].
      reset_path s.
    + exists [EvDelay 240; EvInput true; EvDelay 240; EvIrq true].
      split; [|split; intros; congruence]. reset_path s.
    + exists [EvDelay 240; EvInput false; EvIrq true].
      split; [|split; intros; congruence]. reset_path s.
Qed.

(** C2, as the code has it.  On every return path of u1wire_reset the
    pin is left configured as a pulled-up input, not driven.  A call
    entered with interrupts enabled returns with them enabled.  The
    bus-low return leaves the interrupt mask as it was on entry; every
    other return ends with interrupts enabled, whatever the mask was
    on entry. *)
Theorem reset_releases_and_unmasks (s : bus) :
  pin (snd (reset s)) = PIO_CONFIG_PULLUP /\
  (irq_enabled s = true -> irq_enabled (snd (reset s)) = true) /\
  (sampled s 0 = false -> irq_enabled (snd (reset s)) = irq_enabled s) /\
  (sampled s 0 = true -> irq_enabled (snd (reset s)) = true).
Proof.
  reset_paths s; repeat split; intros; congruence.
Qed.

(** *** Operations that start with a reset *)

Lemma reset_mem (s : bus) : mem (snd (reset s)) = mem s.
Proof. reset_paths s; reflexivity. Qed.

(** What each operation does once its reset has returned 1. *)
Lemma rom_code_read_ok (dev : Z) (s : bus) :
  fst (reset s) = 1 ->
  rom_code_read dev s =
  (1, u1wire_byte_write U1WIRE_RECALL
        (read_bytes 8 (rom_code_addr dev)
           (u1wire_byte_write U1WIRE_READ_ROM (snd (reset s))))).
Proof.
  intros H. unfold u1wire_rom_code_read.
  destruct (reset s) as [ret s1]. cbn [fst snd] in *. subst ret.
  cbn [Z.eqb Pos.eqb negb]. unfold ROM_CODE_SIZE.
  rewrite u1wire_read_eq by lia. reflexivity.
Qed.

Lemma command_ok (dev cmd : Z) (s : bus) :
  fst (reset s) = 1 ->
  command dev cmd s =
  (1, u1wire_byte_write cmd
        (write_bytes 8 (rom_code_addr dev)
           (u1wire_byte_write U1WIRE_MATCH_ROM (snd (reset s))))).
Proof.
  intros H. unfold u1wire_command.
  destruct (reset s) as [ret s1]. cbn [fst snd] in *. subst ret.
  cbn [Z.eqb Pos.eqb negb]. unfold ROM_CODE_SIZE.
  rewrite u1wire_write_eq by lia. reflexivity.
Qed.

Lemma broadcast_ok (cmd : Z) (s : bus) :
  fst (reset s) = 1 ->
  broadcast cmd s =
  (1, u1wire_byte_write cmd
        (u1wire_byte_write U1WIRE_SKIP_ROM (snd (reset s)))).
Proof.
  intros H. unfold u1wire_broadcast.
  destruct (reset s) as [ret s1]. cbn [fst snd] in *. subst ret.
  reflexivity.
Qed.

(** What each operation does when its reset has not returned 1. *)
Lemma ops_reset_failed (dev cmd : Z) (s : bus) :
  fst (reset s) <> 1 ->
  rom_code_read dev s = reset s /\
  command dev cmd s = reset s /\
  broadcast cmd s = reset s.
Proof.
  intros H.
  unfold u1wire_rom_code_read, u1wire_command, u1wire_broadcast.
  destruct (reset s) as [ret s1]. cbn [fst] in H.
  destruct (Z.eqb_spec ret 1) as [E|E]; [contradiction|].
  cbn [negb]. auto.
Qed.

(** C3.  u1wire_rom_code_read (which u1wire_init runs after releasing
    the pin), u1wire_command and u1wire_broadcast each start with
    u1wire_reset: their trace extends the trace of the reset.  When
    the reset returns anything but 1 they return what it returned and
    leave the bus as the reset left it, so no byte is written or read;
    only when it returns 1 do they go on to byte transfers, and then
    they return 1. *)
Theorem protocol_ops_gated_by_reset (dev cmd : Z) (s : bus) :
  (fst (reset s) <> 1 ->
   rom_code_read dev s = reset s /\
   command dev cmd s = reset s /\
   broadcast cmd s = reset s) /\
  (fst (reset s) = 1 ->
   fst (rom_code_read dev s) = 1 /\
   fst (command dev cmd s) = 1 /\
   fst (broadcast cmd s) = 1) /\
  (exists evs,
     trace (snd (rom_code_read dev s)) = trace (snd (reset s)) ++ evs) /\
  (exists evs,
     trace (snd (command dev cmd s)) = trace (snd (reset s)) ++ evs) /\
  (exists evs,
     trace (snd (broadcast cmd s)) = trace (snd (reset s)) ++ evs) /\
  init dev s = rom_code_read dev (U1WIRE_RELEASE s).
Proof.
  split; [apply ops_reset_failed|].
  split.
  { intros H. now rewrite rom_code_read_ok, command_ok, broadcast_ok. }
  destruct (Z.eq_dec (fst (reset s)) 1) as [H|H].
  - rewrite rom_code_read_ok, command_ok, broadcast_ok by assumption.
    cbn [snd].
    destruct (write_bytes_eq 8 (rom_code_addr dev)
                (u1wire_byte_write U1WIRE_MATCH_ROM (snd (reset s))))
      as (_ & _ & _ & Ht).
    split; [|split; [|split; [|reflexivity]]].
    + rewrite (u1wire_byte_write_eq U1WIRE_RECALL). cbn [trace].
      rewrite read_bytes_trace, (u1wire_byte_write_eq U1WIRE_READ_ROM).
      cbn [trace]. rewrite <- !app_assoc. eexists; reflexivity.
    + rewrite (u1wire_byte_write_eq cmd). cbn [trace].
      rewrite Ht, (u1wire_byte_write_eq U1WIRE_MATCH_ROM).
      cbn [trace]. rewrite <- !app_assoc. eexists; reflexivity.
    + rewrite (u1wire_byte_write_eq cmd). cbn [trace].
      rewrite (u1wire_byte_write_eq U1WIRE_SKIP_ROM).
      cbn [trace]. rewrite <- !app_assoc. eexists; reflexivity.
  - destruct (ops_reset_failed dev cmd s H) as (-> & -> & ->).
    repeat split; exists []; now rewrite app_nil_r.
Qed.

(** A successful operation went through a successful reset. *)
Lemma init_ok_inv (dev : Z) (s s' : bus) :
  init dev s = (1, s') ->
  s' = u1wire_byte_write U1WIRE_RECALL
         (read_bytes 8 (rom_code_addr dev)
            (u1wire_byte_write U1WIRE_READ_ROM
               (snd (reset (U1WIRE_RELEASE s))))).
Proof.
  intros Hinit. unfold u1wire_init in Hinit.
  destruct (Z.eq_dec (fst (reset (U1WIRE_RELEASE s))) 1) as [E|E].
  - rewrite (rom_code_read_ok dev _ E) in Hinit. congruence.
  - destruct (ops_reset_failed dev 0 _ E) as (Hf & _).
    rewrite Hf in Hinit. rewrite Hinit in E. cbn [fst] in E. congruence.
Qed.

Lemma command_ok_inv (dev cmd : Z) (s s' : bus) :
  command dev cmd s = (1, s') ->
  s' = u1wire_byte_write cmd
         (write_bytes 8 (rom_code_addr dev)
            (u1wire_byte_write U1WIRE_MATCH_ROM (snd (reset s)))).
Proof.
  intros Hc.
  destruct (Z.eq_dec (fst (reset s)) 1) as [E|E].
  - rewrite (command_ok dev cmd _ E) in Hc. congruence.
  - destruct (ops_reset_failed dev cmd _ E) as (_ & Hf & _).
    rewrite Hf in Hc. rewrite Hc in E. cbn [fst] in E. congruence.
Qed.

(** The rom code holds the bytes read, in the order they were read. *)
Lemma rom_code_stored (a : Z) (sb : bus) :
  mem_bytes (mem (u1wire_byte_write U1WIRE_RECALL (read_bytes 8 a sb))) a 8 =
  bytes_answered 8 sb.
Proof.
  rewrite u1wire_byte_write_mem.
  destruct (read_bytes_frame 8 a sb) as (_ & _ & _ & Hb).
  rewrite Hb. symmetry. apply bytes_answered_eq.
Qed.

(** What the address phase of u1wire_command puts on the bus. *)
Lemma command_sent (a cmd : Z) (sr : bus) (rom : list Z) :
  0 <= cmd < 256 ->
  Forall (fun b => 0 <= b < 256) rom ->
  mem_bytes (mem sr) a 8 = rom ->
  decode_written_bytes
    (emitted sr
       (u1wire_byte_write cmd
          (write_bytes 8 a (u1wire_byte_write U1WIRE_MATCH_ROM sr)))) =
  Some (U1WIRE_MATCH_ROM :: rom ++ [cmd]).
Proof.
  intros Hcmd Hrom Hmem.
  destruct (write_bytes_eq 8 a (u1wire_byte_write U1WIRE_MATCH_ROM sr))
    as (_ & _ & _ & Ht).
  rewrite u1wire_byte_write_mem, Hmem, u1wire_byte_write_trace in Ht.
  rewrite (emitted_app _ _
             (flat_map write_slot
                (flat_map (bits_lsb 8) (U1WIRE_MATCH_ROM :: rom ++ [cmd])))).
  - apply decode_written_bytes_slots.
    constructor; [unfold U1WIRE_MATCH_ROM; lia|].
    apply Forall_app. split; [exact Hrom|].
    constructor; [exact Hcmd | constructor].
  - rewrite (u1wire_byte_write_trace cmd), Ht.
    cbn [flat_map]. rewrite !flat_map_app. cbn [flat_map].
    rewrite !flat_map_app, <- !app_assoc, !app_nil_r. reflexivity.
Qed.

(** C7.  When u1wire_init returns 1, the rom code of the device holds
    the eight bytes read after the Read-ROM command, in the order they
    were read.  A u1wire_command that then returns 1, on a bus whose
    memory still holds that rom code, writes after its reset the
    Match-ROM byte, those same eight bytes in the same order, and
    the command byte, and nothing else. *)
Theorem match_rom_replays_rom_code (dev cmd : Z) (s s' s2 s3 : bus) :
  0 <= cmd < 256 ->
  init dev s = (1, s') ->
  mem_bytes (mem s2) (rom_code_addr dev) 8 =
  mem_bytes (mem s') (rom_code_addr dev) 8 ->
  command dev cmd s2 = (1, s3) ->
  exists rom,
    rom = bytes_answered 8 (u1wire_byte_write U1WIRE_READ_ROM
                              (snd (reset (U1WIRE_RELEASE s)))) /\
    length rom = 8%nat /\
    mem_bytes (mem s') (rom_code_addr dev) 8 = rom /\
    decode_written_bytes (emitted (snd (reset s2)) s3) =
    Some (U1WIRE_MATCH_ROM :: rom ++ [cmd]).
Proof.
  intros Hcmd Hinit Hmem Hc.
  apply init_ok_inv in Hinit. apply command_ok_inv in Hc.
  rewrite Hinit, rom_code_stored in Hmem.
  eexists. split; [reflexivity|].
  split; [apply bytes_answered_length|].
  split; [rewrite Hinit; apply rom_code_stored|].
  rewrite Hc. apply command_sent.
  - exact Hcmd.
  - rewrite bytes_answered_eq. apply answered_range.
  - rewrite reset_mem. exact Hmem.
Qed.

End ResetFacts.

(** ** Concrete runs *)

(** Error numbers 1 to 5 meet what is assumed of them. *)
Lemma err_range_1_5 : Forall (fun c => 0 < c <= 128) [1; 2; 3; 4; 5].
Proof. repeat constructor; lia. Defined.

Lemma err_distinct_1_5 : NoDup [1; 2; 3; 4; 5].
Proof. repeat constructor; cbn; lia. Defined.

Lemma pair_eta {A B : Type} (p : A * B) (a : A) :
  fst p = a -> p = (a, snd p).
Proof. intros <-. now destruct p. Defined.

(** C1, at the byte 0xa5: written on an idle bus it goes out as the
    bits 1,0,1,0,0,1,0,1, and read back on a bus whose line plays
    these bits it comes back as 0xa5. *)
Lemma byte_write_read_loopback_a5 :
  decode_write_slots
    (emitted (idle_bus []) (u1wire_byte_write 0xa5 (idle_bus []))) =
  Some [true; false; true; false; false; true; false; true] /\
  fst (u1wire_byte_read
         (idle_bus [true; false; true; false; false; true; false; true]))
  = 0xa5.
Proof.
  destruct (byte_write_read_loopback 0xa5 (idle_bus [])
              (idle_bus [true; false; true; false; false; true; false; true]))
    as (bits & Hd & _ & Hread); [lia|].
  assert (Hbits : bits = [true; false; true; false; false; true; false; true]).
  { vm_compute in Hd. congruence. }
  rewrite Hbits in Hd, Hread. split; [exact Hd|].
  apply Hread. intros k Hk.
  do 8 (destruct k as [|k]; [reflexivity|]).
  cbn [length] in Hk. lia.
Defined.

(** C4, with error numbers 1 to 5, on a line that is high, low while
    driven, high after the release and high through the response
    window. *)
Lemma reset_no_device_run :
  fst (u1wire_reset 1 2 3 4 5 (idle_bus [true; false; true; true])) = 0 /\
  ~ In (fst (u1wire_reset 1 2 3 4 5 (idle_bus [true; false; true; true])))
       [to_int8 (- 1); to_int8 (- 2); to_int8 (- 3); to_int8 (- 4);
        to_int8 (- 5)].
Proof.
  apply (reset_no_device 1 2 3 4 5 err_range_1_5
           (idle_bus [true; false; true; true])); reflexivity.
Defined.

(** C6, with error numbers 1 to 5, on a line held low. *)
Lemma reset_bus_low_run :
  fst (u1wire_reset 1 2 3 4 5 (idle_bus [false])) = to_int8 (- 1) /\
  emitted (idle_bus [false]) (snd (u1wire_reset 1 2 3 4 5 (idle_bus [false])))
  = [EvConfig PIO_CONFIG_PULLUP; EvDelay 5; EvInput false].
Proof.
  destruct (reset_bus_low_high 1 2 3 4 5 err_range_1_5 err_distinct_1_5
              (idle_bus [false])) as (Hlow & Htrace & _).
  split.
  - apply Hlow. reflexivity.
  - apply Htrace. reflexivity.
Defined.

(** C5, with error numbers 1 to 5, on a line where a device answers
    and lets go within 10 microseconds. *)
Lemma reset_presence_short_run :
  fst (u1wire_reset 1 2 3 4 5 (idle_bus [true; false; true; false; true]))
  = to_int8 (- 4) /\
  to_int8 (- 4) <> to_int8 (- 5).
Proof.
  destruct (reset_presence_short_long 1 2 3 4 5 err_range_1_5
              err_distinct_1_5 (idle_bus [true; false; true; false; true]))
    as (Hshort & _ & Hne & _).
  split.
  - apply Hshort. repeat split.
  - exact Hne.
Defined.

(** C2 as stated fails on a call entered with interrupts masked: the
    reset succeeds and returns with interrupts enabled, so the mask on
    return is not the mask on entry. *)
Lemma reset_unmasks_masked_caller :
  fst (u1wire_reset 1 2 3 4 5
         (masked_bus [true; false; true; false; false; true])) = 1 /\
  ~ (irq_enabled
       (snd (u1wire_reset 1 2 3 4 5
               (masked_bus [true; false; true; false; false; true]))) = true
     <->
     irq_enabled (masked_bus [true; false; true; false; false; true]) = true).
Proof.
  split; [vm_compute; reflexivity|].
  intros [H _].
  assert (Hon : irq_enabled
                  (snd (u1wire_reset 1 2 3 4 5
                          (masked_bus
                             [true; false; true; false; false; true]))) = true)
    by (vm_compute; reflexivity).
  specialize (H Hon). discriminate H.
Qed.

(** C7, with error numbers 1 to 5: discovery of the device answering
    [rom_28], then the command 0x44 addressed to it. *)
Lemma match_rom_replays_rom_28 :
  mem_bytes (mem (snd (u1wire_init 1 2 3 4 5 0x100 discovery_bus))) 0x100 8
  = rom_28 /\
  decode_written_bytes
    (emitted
       (snd (u1wire_reset 1 2 3 4 5
               (snd (u1wire_init 1 2 3 4 5 0x100 discovery_bus))))
       (snd (u1wire_command 1 2 3 4 5 0x100 0x44
               (snd (u1wire_init 1 2 3 4 5 0x100 discovery_bus)))))
  = Some (U1WIRE_MATCH_ROM :: rom_28 ++ [0x44]).
Proof.
  destruct (match_rom_replays_rom_code 1 2 3 4 5 0x100 0x44 discovery_bus
              (snd (u1wire_init 1 2 3 4 5 0x100 discovery_bus))
              (snd (u1wire_init 1 2 3 4 5 0x100 discovery_bus))
              (snd (u1wire_command 1 2 3 4 5 0x100 0x44
                      (snd (u1wire_init 1 2 3 4 5 0x100 discovery_bus)))))
    as (rom & Hrom & _ & Hmem & Hsent).
  - lia.
  - apply pair_eta. vm_compute. reflexivity.
  - reflexivity.
  - apply pair_eta. vm_compute. reflexivity.
  - assert (Hv : rom = rom_28) by (rewrite Hrom; vm_compute; reflexivity).
    rewrite Hv in Hmem, Hsent. split; assumption.
Defined.
(** ** Further properties *)

(** *** Traces of the slots and of the bytes *)

Lemma u1wire_bit_write_emitted (value : Z) (s : bus) :
  emitted s (u1wire_bit_write value s) = write_slot (negb (value =? 0)).
Proof. apply emitted_app. now rewrite u1wire_bit_write_eq. Qed.

Lemma u1wire_bit_read_emitted (s : bus) :
  emitted s (snd (u1wire_bit_read s)) = read_slot (sampled s 0).
Proof.
  apply emitted_app. rewrite u1wire_bit_read_eq. cbn [snd trace].
  unfold sampled. now rewrite Nat.add_0_r.
Qed.

Lemma u1wire_byte_write_emitted (value : Z) (s : bus) :
  emitted s (u1wire_byte_write value s) =
  flat_map write_slot (bits_lsb 8 value).
Proof. apply emitted_app, u1wire_byte_write_trace. Qed.

Lemma u1wire_byte_read_emitted (s : bus) :
  emitted s (snd (u1wire_byte_read s)) =
  flat_map read_slot (levels (line s) (samples s) 8).
Proof. apply emitted_app. now rewrite u1wire_byte_read_eq. Qed.

Lemma duration_app (a b : list event) :
  duration (a ++ b) = duration a + duration b.
Proof.
  induction a as [|[] a IH]; cbn [duration app]; rewrite ?IH; lia.
Qed.

Lemma duration_write_slots (bs : list bool) :
  duration (flat_map write_slot bs) = 58 * Z.of_nat (length bs).
Proof.
  induction bs as [|b bs IH]; [reflexivity|].
  cbn [flat_map length]. rewrite duration_app, IH.
  replace (duration (write_slot b)) with 58 by now destruct b.
  lia.
Qed.

Lemma duration_read_slots (bs : list bool) :
  duration (flat_map read_slot bs) = 67 * Z.of_nat (length bs).
Proof.
  induction bs as [|b bs IH]; [reflexivity|].
  cbn [flat_map length]. rewrite duration_app, IH.
  replace (duration (read_slot b)) with 67 by reflexivity.
  lia.
Qed.

Lemma critical_run_app (a b : list event) : forall masked driven,
  critical_run masked driven (a ++ b) =
  match critical_run masked driven a with
  | Some (m, d) => critical_run m d b
  | None => None
  end.
Proof.
  induction a as [|e a IH]; intros masked driven; [reflexivity|].
  destruct e as [[]| | |[]]; cbn [critical_run app];
    destruct masked, driven; cbn [andb negb]; auto.
Qed.

Lemma critical_ok_app (a b : list event) :
  critical_ok a -> critical_ok b -> critical_ok (a ++ b).
Proof.
  unfold critical_ok. intros Ha Hb. now rewrite critical_run_app, Ha.
Qed.

Lemma critical_ok_flat_map {A : Type} (f : A -> list event) (l : list A) :
  (forall x, critical_ok (f x)) -> critical_ok (flat_map f l).
Proof.
  intros H. induction l as [|x l IH]; [reflexivity|].
  cbn [flat_map]. now apply critical_ok_app.
Qed.

Lemma critical_ok_write_slot (b : bool) : critical_ok (write_slot b).
Proof. now destruct b. Qed.

Lemma critical_ok_read_slot (b : bool) : critical_ok (read_slot b).
Proof. reflexivity. Qed.

Lemma critical_ok_reset_events (l : nat -> bool) :
  critical_ok (reset_events l).
Proof.
  unfold reset_events, critical_ok.
  destruct (l 0%nat), (l 1%nat), (l 2%nat), (l 3%nat), (l 4%nat), (l 5%nat);
    reflexivity.
Qed.

Lemma levels_sampled (s : bus) :
  levels (line s) (samples s) 8 = map (sampled s) bit_positions.
Proof.
  unfold sampled, bit_positions. cbn [levels seq map].
  rewrite ?Nat.add_succ_r, Nat.add_0_r. reflexivity.
Qed.

Lemma levels_nth (ln : nat -> bool) (bits : list bool) : forall k,
  (forall j, (j < length bits)%nat -> ln (k + j)%nat = nth j bits false) ->
  levels ln k (length bits) = bits.
Proof.
  induction bits as [|b bits IH]; intros k H; [reflexivity|].
  cbn [levels length]. f_equal.
  - specialize (H O). rewrite Nat.add_0_r in H. apply H. cbn. lia.
  - apply IH. intros j Hj. specialize (H (S j)).
    rewrite Nat.add_succ_r in H. apply H. cbn. lia.
Qed.

Lemma bits_lsb_testbit (n : nat) : forall (v : Z) (k : nat),
  bits_lsb n (Z.shiftr v (Z.of_nat k)) =
  map (fun i => Z.testbit v (Z.of_nat i)) (seq k n).
Proof.
  induction n as [|n IH]; intros v k; [reflexivity|].
  cbn [bits_lsb seq map]. f_equal.
  - symmetry. apply Z.testbit_odd.
  - rewrite Z.shiftr_shiftr by lia.
    replace (Z.of_nat k + 1) with (Z.of_nat (S k)) by lia. apply IH.
Qed.

(** *** Bits, bytes and buffers *)

(** X1.  u1wire_byte_write sends bit [i] of its value in its [i]-th
    write slot, lowest bit first, whatever the value; it takes no
    sample of the line and changes no byte of memory. *)
Theorem byte_write_sends_bits (value : Z) (s : bus) :
  decode_write_slots (emitted s (u1wire_byte_write value s)) =
    Some (map (fun i => Z.testbit value (Z.of_nat i)) bit_positions) /\
  samples (u1wire_byte_write value s) = samples s /\
  mem (u1wire_byte_write value s) = mem s.
Proof.
  rewrite u1wire_byte_write_emitted, decode_write_slots_bits.
  pose proof (bits_lsb_testbit 8 value 0) as Hb.
  change (Z.of_nat 0) with 0 in Hb. rewrite Z.shiftr_0_r in Hb.
  rewrite Hb. clear Hb.
  rewrite u1wire_byte_write_mem, u1wire_byte_write_eq. repeat split.
Qed.

(** X2.  Bit [i] of the byte u1wire_byte_read returns is the level of
    the line at its [i]-th sample; the byte is within 0..255, eight
    samples are taken and no byte of memory changes. *)
Theorem byte_read_collects_bits (s : bus) :
  map (fun i => Z.testbit (fst (u1wire_byte_read s)) (Z.of_nat i))
      bit_positions = map (sampled s) bit_positions /\
  0 <= fst (u1wire_byte_read s) < 256 /\
  samples (snd (u1wire_byte_read s)) = (samples s + 8)%nat /\
  mem (snd (u1wire_byte_read s)) = mem s.
Proof.
  rewrite u1wire_byte_read_eq. cbn [fst snd samples mem].
  split; [|split; [apply shift_in_byte_range, levels_length | split;
                   reflexivity]].
  rewrite levels_sampled. unfold bit_positions. cbn [seq map].
  destruct (sampled s 0), (sampled s 1), (sampled s 2), (sampled s 3),
    (sampled s 4), (sampled s 5), (sampled s 6), (sampled s 7);
    vm_compute; reflexivity.
Qed.

(** X3.  The read slot of u1wire_bit_read drives the line low for 1
    microsecond, samples it 7 microseconds into the slot and lasts
    67 microseconds whatever the level; the bit returned is 1 when the
    line was high at that sample and 0 when it was low, and
    u1wire_ready_p is true exactly when it was high. *)
Theorem bit_read_slot_timing (s : bus) :
  low_time (pin s) (emitted s (snd (u1wire_bit_read s))) = 1 /\
  sample_time (emitted s (snd (u1wire_bit_read s))) = Some 7 /\
  duration (emitted s (snd (u1wire_bit_read s))) = 67 /\
  fst (u1wire_bit_read s) = Z.b2z (sampled s 0) /\
  fst (u1wire_ready_p s) = sampled s 0 /\
  samples (snd (u1wire_bit_read s)) = S (samples s).
Proof.
  rewrite u1wire_bit_read_emitted.
  unfold u1wire_ready_p. rewrite u1wire_bit_read_eq. cbn [fst snd samples].
  unfold sampled. rewrite Nat.add_0_r.
  repeat split. now destruct (line s (samples s)).
Qed.

Lemma read_bytes_emitted (n : nat) (buffer : Z) (s : bus) :
  emitted s (read_bytes n buffer s) =
  flat_map read_slot (levels (line s) (samples s) (8 * n)).
Proof. apply emitted_app, read_bytes_trace. Qed.

Lemma write_bytes_emitted (n : nat) (buffer : Z) (s : bus) :
  emitted s (write_bytes n buffer s) =
  flat_map write_slot (flat_map (bits_lsb 8) (mem_bytes (mem s) buffer n)).
Proof.
  apply emitted_app.
  now destruct (write_bytes_eq n buffer s) as (_ & _ & _ & Ht).
Qed.

Lemma flat_map_bits_length (bytes : list Z) :
  length (flat_map (bits_lsb 8) bytes) = (8 * length bytes)%nat.
Proof.
  induction bytes as [|b bytes IH]; [reflexivity|].
  cbn [flat_map]. rewrite length_app, bits_lsb_length, IH. cbn [length]. lia.
Qed.

Lemma mem_bytes_length (m : Z -> Z) (n : nat) : forall p,
  length (mem_bytes m p n) = n.
Proof. induction n as [|n IH]; intros p; cbn; [|rewrite IH]; reflexivity. Qed.

(** X4.  The time a transfer takes, as the sum of its delays, does not
    depend on the data: 58 microseconds for a bit written, 464 for a
    byte written, 536 for a byte read, and for a buffer of [size]
    bytes 464 and 536 microseconds per byte. *)
Theorem transfer_duration (data size value : Z) (s : bus) :
  0 <= size <= 255 ->
  duration (emitted s (u1wire_bit_write value s)) = 58 /\
  duration (emitted s (u1wire_byte_write value s)) = 464 /\
  duration (emitted s (snd (u1wire_byte_read s))) = 536 /\
  duration (emitted s (snd (u1wire_write data size s))) = 464 * size /\
  duration (emitted s (snd (u1wire_read data size s))) = 536 * size.
Proof.
  intros H.
  rewrite u1wire_bit_write_emitted, u1wire_byte_write_emitted,
    u1wire_byte_read_emitted.
  rewrite u1wire_write_eq, u1wire_read_eq by assumption. cbn [snd].
  rewrite write_bytes_emitted, read_bytes_emitted.
  rewrite !duration_write_slots, !duration_read_slots.
  rewrite flat_map_bits_length, mem_bytes_length, bits_lsb_length,
    !levels_length.
  repeat split; try lia. now destruct (value =? 0).
Qed.

(** X5.  Every bit, byte and buffer transfer keeps the critical
    sections: the line is driven low only with interrupts masked, each
    masked section ends with the line released, and masked sections
    do not nest. *)
Theorem transfers_keep_critical_sections (data size value : Z) (s : bus) :
  0 <= size <= 255 ->
  critical_ok (emitted s (u1wire_bit_write value s)) /\
  critical_ok (emitted s (snd (u1wire_bit_read s))) /\
  critical_ok (emitted s (snd (u1wire_ready_p s))) /\
  critical_ok (emitted s (u1wire_byte_write value s)) /\
  critical_ok (emitted s (snd (u1wire_byte_read s))) /\
  critical_ok (emitted s (snd (u1wire_write data size s))) /\
  critical_ok (emitted s (snd (u1wire_read data size s))).
Proof.
  intros H.
  assert (Hp : snd (u1wire_ready_p s) = snd (u1wire_bit_read s)).
  { unfold u1wire_ready_p. now destruct (u1wire_bit_read s). }
  rewrite Hp.
  rewrite u1wire_bit_write_emitted, u1wire_bit_read_emitted,
    u1wire_byte_write_emitted, u1wire_byte_read_emitted.
  rewrite u1wire_write_eq, u1wire_read_eq by assumption. cbn [snd].
  rewrite write_bytes_emitted, read_bytes_emitted.
  repeat split;
    auto using critical_ok_write_slot, critical_ok_read_slot,
      critical_ok_flat_map.
Qed.

Lemma read_bytes_mem_above (n : nat) : forall (buffer a : Z) (s : bus),
  buffer + Z.of_nat n <= a -> mem (read_bytes n buffer s) a = mem s a.
Proof.
  induction n as [|n IH]; intros buffer a s Ha; cbn [read_bytes];
    [reflexivity|].
  rewrite u1wire_byte_read_eq. rewrite IH by lia.
  cbn [mem mem_store].
  replace (a =? buffer) with false by (symmetry; apply Z.eqb_neq; lia).
  reflexivity.
Qed.

(** X6.  u1wire_read with a size within 0..255 stores the bytes it
    reads at [data], [data + 1], ... in the order read, and changes no
    byte of memory outside these [size] addresses; it takes eight
    samples per byte and its trace is made of read slots only. *)
Theorem u1wire_read_stores_in_buffer (data size : Z) (s : bus) :
  0 <= size <= 255 ->
  mem_bytes (mem (snd (u1wire_read data size s))) data (Z.to_nat size) =
    bytes_answered (Z.to_nat size) s /\
  (forall a, a < data \/ data + size <= a ->
             mem (snd (u1wire_read data size s)) a = mem s a) /\
  samples (snd (u1wire_read data size s)) =
    (samples s + 8 * Z.to_nat size)%nat /\
  emitted s (snd (u1wire_read data size s)) =
    flat_map read_slot (levels (line s) (samples s) (8 * Z.to_nat size)).
Proof.
  intros H. rewrite u1wire_read_eq by assumption. cbn [snd].
  destruct (read_bytes_frame (Z.to_nat size) data s) as (_ & Hs & Hm & Hb).
  rewrite bytes_answered_eq, read_bytes_emitted.
  repeat split; try assumption.
  intros a [Ha|Ha]; [now apply Hm|].
  apply read_bytes_mem_above. lia.
Qed.

(** X7.  u1wire_write with a size within 0..255 puts on the bus the
    [size] bytes of memory from [data] on, in order and nothing else,
    when each of them is a byte; it takes no sample and changes no
    byte of memory. *)
Theorem u1wire_write_sends_buffer (data size : Z) (s : bus) :
  0 <= size <= 255 ->
  Forall (fun b => 0 <= b < 256) (mem_bytes (mem s) data (Z.to_nat size)) ->
  decode_written_bytes (emitted s (snd (u1wire_write data size s))) =
    Some (mem_bytes (mem s) data (Z.to_nat size)) /\
  samples (snd (u1wire_write data size s)) = samples s /\
  mem (snd (u1wire_write data size s)) = mem s.
Proof.
  intros H Hb. rewrite u1wire_write_eq by assumption. cbn [snd].
  rewrite write_bytes_emitted.
  destruct (write_bytes_eq (Z.to_nat size) data s) as (_ & Hs & Hm & _).
  repeat split; try assumption.
  now apply decode_written_bytes_slots.
Qed.

Lemma answered_bits (ln : nat -> bool) (bytes : list Z) : forall k,
  Forall (fun b => 0 <= b < 256) bytes ->
  (forall j, (j < length (flat_map (bits_lsb 8) bytes))%nat ->
             ln (k + j)%nat = nth j (flat_map (bits_lsb 8) bytes) false) ->
  answered ln k (length bytes) = bytes.
Proof.
  induction bytes as [|b bytes IH]; intros k Hr H; [reflexivity|].
  inversion Hr as [|b' bytes' Hb Hr']; subst.
  cbn [flat_map length answered] in *.
  rewrite length_app, bits_lsb_length in H. f_equal.
  - rewrite <- (bits_lsb_length 8 b) at 1.
    rewrite levels_nth; [now apply shift_in_bits_lsb|].
    rewrite bits_lsb_length. intros j Hj.
    rewrite H by lia. apply app_nth1. now rewrite bits_lsb_length.
  - apply IH; [assumption|]. intros j Hj.
    replace (k + 8 + j)%nat with (k + (8 + j))%nat by lia.
    rewrite H by lia. rewrite app_nth2; rewrite bits_lsb_length; [|lia].
    f_equal. lia.
Qed.

(** X8.  A buffer written by u1wire_write and played back by the line
    bit for bit is read back by u1wire_read as the same bytes, in the
    same order. *)
Theorem buffer_write_read_loopback
  (src dst size : Z) (s s2 : bus) (bits : list bool) :
  0 <= size <= 255 ->
  Forall (fun b => 0 <= b < 256) (mem_bytes (mem s) src (Z.to_nat size)) ->
  decode_write_slots (emitted s (snd (u1wire_write src size s))) =
    Some bits ->
  loopback s2 bits ->
  mem_bytes (mem (snd (u1wire_read dst size s2))) dst (Z.to_nat size) =
  mem_bytes (mem s) src (Z.to_nat size).
Proof.
  intros H Hr Hd Hl.
  rewrite u1wire_write_eq in Hd by assumption. cbn [snd] in Hd.
  rewrite write_bytes_emitted, decode_write_slots_bits in Hd.
  injection Hd as <-.
  rewrite u1wire_read_eq by assumption. cbn [snd].
  destruct (read_bytes_frame (Z.to_nat size) dst s2) as (_ & _ & _ & Hb).
  rewrite Hb.
  rewrite <- (mem_bytes_length (mem s) (Z.to_nat size) src) at 1.
  apply answered_bits; assumption.
Qed.

(** X16.  For a size within 0..255, u1wire_read and u1wire_write
    return the size itself when it is at most 127 and the size less
    256, a negative number, when it is 128 or more: the count of
    bytes transferred comes back through an [int8_t]. *)
Theorem buffer_count_returned (data size : Z) (s : bus) :
  0 <= size <= 255 ->
  fst (u1wire_read data size s) =
    (if size <? 128 then size else size - 256) /\
  fst (u1wire_write data size s) =
    (if size <? 128 then size else size - 256).
Proof.
  intros H.
  rewrite u1wire_read_eq, u1wire_write_eq by assumption. cbn [fst].
  unfold to_int8.
  destruct (Z.ltb_spec size 128).
  - rewrite Z.mod_small by lia. lia.
  - replace (size + 128) with (size - 128 + 1 * 256) by lia.
    rewrite Z.mod_add, Z.mod_small by lia. lia.
Qed.

(** *** The reset and the operations that start with it *)

Lemma u1wire_byte_write_released (value : Z) (s : bus) :
  pin (u1wire_byte_write value s) = PIO_CONFIG_PULLUP /\
  irq_enabled (u1wire_byte_write value s) = true /\
  line (u1wire_byte_write value s) = line s /\
  samples (u1wire_byte_write value s) = samples s.
Proof. now rewrite u1wire_byte_write_eq. Qed.

Lemma U1WIRE_RELEASE_eq (s : bus) :
  mem (U1WIRE_RELEASE s) = mem s /\
  line (U1WIRE_RELEASE s) = line s /\
  samples (U1WIRE_RELEASE s) = samples s /\
  trace (U1WIRE_RELEASE s) = trace s ++ [EvConfig PIO_CONFIG_PULLUP].
Proof. repeat split. Qed.

Section ResetPaths.

Variables U1WIRE_ERR_BUS_LOW U1WIRE_ERR_BUS_HIGH U1WIRE_ERR_BUS_STUCK
          U1WIRE_ERR_PRESENCE_SHORT U1WIRE_ERR_PRESENCE_LONG : Z.

Local Abbreviation reset :=
  (u1wire_reset U1WIRE_ERR_BUS_LOW U1WIRE_ERR_BUS_HIGH U1WIRE_ERR_BUS_STUCK
                U1WIRE_ERR_PRESENCE_SHORT U1WIRE_ERR_PRESENCE_LONG).
Local Abbreviation rom_code_read :=
  (u1wire_rom_code_read U1WIRE_ERR_BUS_LOW U1WIRE_ERR_BUS_HIGH
     U1WIRE_ERR_BUS_STUCK U1WIRE_ERR_PRESENCE_SHORT U1WIRE_ERR_PRESENCE_LONG).
Local Abbreviation command :=
  (u1wire_command U1WIRE_ERR_BUS_LOW U1WIRE_ERR_BUS_HIGH
     U1WIRE_ERR_BUS_STUCK U1WIRE_ERR_PRESENCE_SHORT U1WIRE_ERR_PRESENCE_LONG).
Local Abbreviation broadcast :=
  (u1wire_broadcast U1WIRE_ERR_BUS_LOW U1WIRE_ERR_BUS_HIGH
     U1WIRE_ERR_BUS_STUCK U1WIRE_ERR_PRESENCE_SHORT U1WIRE_ERR_PRESENCE_LONG).
Local Abbreviation init :=
  (u1wire_init U1WIRE_ERR_BUS_LOW U1WIRE_ERR_BUS_HIGH
     U1WIRE_ERR_BUS_STUCK U1WIRE_ERR_PRESENCE_SHORT U1WIRE_ERR_PRESENCE_LONG).
Local Abbreviation returned :=
  (reset_return U1WIRE_ERR_BUS_LOW U1WIRE_ERR_BUS_HIGH
     U1WIRE_ERR_BUS_STUCK U1WIRE_ERR_PRESENCE_SHORT U1WIRE_ERR_PRESENCE_LONG).

(** u1wire_reset, path by path: what it returns, what it adds to the
    trace and how it leaves the bus, from the levels it samples. *)
Lemma u1wire_reset_eq (s : bus) :
  fst (reset s) = returned (sampled s) /\
  trace (snd (reset s)) = trace s ++ reset_events (sampled s) /\
  samples (snd (reset s)) = (samples s + reset_samples (sampled s))%nat /\
  line (snd (reset s)) = line s /\
  mem (snd (reset s)) = mem s /\
  pin (snd (reset s)) = PIO_CONFIG_PULLUP.
Proof.
  unfold reset_return, reset_events, reset_samples.
  destruct s as [p i ln k m tr].
  unfold sampled.
  cbn [pin irq_enabled line samples mem trace].
  rewrite ?Nat.add_succ_r, ?Nat.add_0_r.
  unfold u1wire_reset. unfold_bus.
  destruct (ln k); destruct (ln (S k)); destruct (ln (S (S k)));
    destruct (ln (S (S (S k)))); destruct (ln (S (S (S (S k)))));
    destruct (ln (S (S (S (S (S k))))));
    cbv beta iota zeta delta [negb fst snd];
    rewrite <- ?app_assoc;
    repeat split; try reflexivity; lia.
Qed.

Lemma reset_emitted (s : bus) :
  emitted s (snd (reset s)) = reset_events (sampled s).
Proof. apply emitted_app. now destruct (u1wire_reset_eq s) as (_ & Ht & _). Qed.


(** Traces of the operations, from the trace of their reset. *)
Lemma rom_code_read_trace (dev : Z) (s : bus) :
  trace (snd (rom_code_read dev s)) =
  trace s ++ reset_events (sampled s) ++
  (if fst (reset s) =? 1
   then flat_map write_slot (bits_lsb 8 U1WIRE_READ_ROM) ++
        flat_map read_slot
          (levels (line s) (samples (snd (reset s))) (8 * 8)) ++
        flat_map write_slot (bits_lsb 8 U1WIRE_RECALL)
   else []).
Proof.
  destruct (u1wire_reset_eq s) as (_ & Ht & _ & Hl & _).
  destruct (Z.eq_dec (fst (reset s)) 1) as [E|E].
  - rewrite (rom_code_read_ok _ _ _ _ _ dev s E). cbn [snd].
    rewrite E. cbn [Z.eqb Pos.eqb].
    rewrite u1wire_byte_write_trace, read_bytes_trace.
    destruct (u1wire_byte_write_released U1WIRE_READ_ROM (snd (reset s)))
      as (_ & _ & Hl' & Hs').
    rewrite Hl', Hs', Hl, u1wire_byte_write_trace, Ht.
    now rewrite <- !app_assoc.
  - destruct (ops_reset_failed _ _ _ _ _ dev 0 s E) as (-> & _).
    apply Z.eqb_neq in E. rewrite E, Ht, app_nil_r. reflexivity.
Qed.

Lemma command_trace (dev cmd : Z) (s : bus) :
  trace (snd (command dev cmd s)) =
  trace s ++ reset_events (sampled s) ++
  (if fst (reset s) =? 1
   then flat_map write_slot
          (flat_map (bits_lsb 8)
             (U1WIRE_MATCH_ROM
                :: mem_bytes (mem s) (rom_code_addr dev) 8 ++ [cmd]))
   else []).
Proof.
  destruct (u1wire_reset_eq s) as (_ & Ht & _ & _ & Hm & _).
  destruct (Z.eq_dec (fst (reset s)) 1) as [E|E].
  - rewrite (command_ok _ _ _ _ _ dev cmd s E). cbn [snd].
    rewrite E. cbn [Z.eqb Pos.eqb].
    rewrite u1wire_byte_write_trace.
    destruct (write_bytes_eq 8 (rom_code_addr dev)
                (u1wire_byte_write U1WIRE_MATCH_ROM (snd (reset s))))
      as (_ & _ & _ & Hw).
    rewrite Hw, u1wire_byte_write_mem, Hm, u1wire_byte_write_trace, Ht.
    cbn [flat_map]. rewrite !flat_map_app. cbn [flat_map].
    rewrite !flat_map_app, <- !app_assoc, !app_nil_r. reflexivity.
  - destruct (ops_reset_failed _ _ _ _ _ dev cmd s E) as (_ & -> & _).
    apply Z.eqb_neq in E. rewrite E, Ht, app_nil_r. reflexivity.
Qed.

Lemma broadcast_trace (cmd : Z) (s : bus) :
  trace (snd (broadcast cmd s)) =
  trace s ++ reset_events (sampled s) ++
  (if fst (reset s) =? 1
   then flat_map write_slot (flat_map (bits_lsb 8) [U1WIRE_SKIP_ROM; cmd])
   else []).
Proof.
  destruct (u1wire_reset_eq s) as (_ & Ht & _).
  destruct (Z.eq_dec (fst (reset s)) 1) as [E|E].
  - rewrite (broadcast_ok _ _ _ _ _ cmd s E). cbn [snd].
    rewrite E. cbn [Z.eqb Pos.eqb].
    rewrite !u1wire_byte_write_trace, Ht.
    cbn [flat_map]. rewrite !flat_map_app, <- !app_assoc, !app_nil_r.
    reflexivity.
  - destruct (ops_reset_failed _ _ _ _ _ 0 cmd s E) as (_ & _ & ->).
    apply Z.eqb_neq in E. rewrite E, Ht, app_nil_r. reflexivity.
Qed.

Lemma u1wire_init_eq (dev : Z) (s : bus) :
  init dev s = rom_code_read dev (U1WIRE_RELEASE s).
Proof. reflexivity. Qed.

(** The value an operation returns is the value its reset returned. *)
Lemma ops_return (dev cmd : Z) (s : bus) :
  fst (rom_code_read dev s) = fst (reset s) /\
  fst (command dev cmd s) = fst (reset s) /\
  fst (broadcast cmd s) = fst (reset s).
Proof.
  destruct (Z.eq_dec (fst (reset s)) 1) as [E|E].
  - rewrite (rom_code_read_ok _ _ _ _ _ dev s E),
      (command_ok _ _ _ _ _ dev cmd s E), (broadcast_ok _ _ _ _ _ cmd s E).
    now rewrite E.
  - now destruct (ops_reset_failed _ _ _ _ _ dev cmd s E) as (-> & -> & ->).
Qed.

(** X9.  u1wire_reset, u1wire_rom_code_read, u1wire_init,
    u1wire_command and u1wire_broadcast keep the critical sections on
    every path: the line is driven low only with interrupts masked,
    each masked section ends with the line released, and masked
    sections do not nest. *)
Theorem protocol_keeps_critical_sections (dev cmd : Z) (s : bus) :
  critical_ok (emitted s (snd (reset s))) /\
  critical_ok (emitted s (snd (rom_code_read dev s))) /\
  critical_ok (emitted s (snd (init dev s))) /\
  critical_ok (emitted s (snd (command dev cmd s))) /\
  critical_ok (emitted s (snd (broadcast cmd s))).
Proof.
  assert (Hw : forall bs, critical_ok (flat_map write_slot bs))
    by (intros; apply critical_ok_flat_map, critical_ok_write_slot).
  assert (Hr : forall bs, critical_ok (flat_map read_slot bs))
    by (intros; apply critical_ok_flat_map, critical_ok_read_slot).
  assert (Hrom : forall s0,
             critical_ok
               (reset_events (sampled s0) ++
                (if fst (reset s0) =? 1
                 then flat_map write_slot (bits_lsb 8 U1WIRE_READ_ROM) ++
                      flat_map read_slot
                        (levels (line s0) (samples (snd (reset s0))) (8 * 8))
                      ++ flat_map write_slot (bits_lsb 8 U1WIRE_RECALL)
                 else []))).
  { intros s0. apply critical_ok_app; [apply critical_ok_reset_events|].
    destruct (fst (reset s0) =? 1); [|reflexivity].
    apply critical_ok_app; [apply Hw|].
    apply critical_ok_app; [apply Hr | apply Hw]. }
  split; [|split; [|split; [|split]]].
  - rewrite reset_emitted. apply critical_ok_reset_events.
  - rewrite (emitted_app _ _ _ (rom_code_read_trace dev s)). apply Hrom.
  - rewrite u1wire_init_eq.
    rewrite (emitted_app s _
               ([EvConfig PIO_CONFIG_PULLUP] ++
                reset_events (sampled (U1WIRE_RELEASE s)) ++
                (if fst (reset (U1WIRE_RELEASE s)) =? 1
                 then flat_map write_slot (bits_lsb 8 U1WIRE_READ_ROM) ++
                      flat_map read_slot
                        (levels (line (U1WIRE_RELEASE s))
                           (samples (snd (reset (U1WIRE_RELEASE s))))
                           (8 * 8))
                      ++ flat_map write_slot (bits_lsb 8 U1WIRE_RECALL)
                 else []))).
    + apply critical_ok_app; [reflexivity | apply Hrom].
    + rewrite rom_code_read_trace.
      destruct (U1WIRE_RELEASE_eq s) as (_ & _ & _ & ->).
      now rewrite <- app_assoc.
  - rewrite (emitted_app _ _ _ (command_trace dev cmd s)).
    apply critical_ok_app; [apply critical_ok_reset_events|].
    destruct (fst (reset s) =? 1); [apply Hw | reflexivity].
  - rewrite (emitted_app _ _ _ (broadcast_trace cmd s)).
    apply critical_ok_app; [apply critical_ok_reset_events|].
    destruct (fst (reset s) =? 1); [apply Hw | reflexivity].
Qed.

(** X10.  Every operation that ends returns with the line released:
    the bit and byte transfers and u1wire_ready_p leave the pin pulled
    up and interrupts enabled, and u1wire_rom_code_read, u1wire_init,
    u1wire_command and u1wire_broadcast leave the pin pulled up on
    every path, with interrupts enabled whenever they return 1. *)
Theorem operations_release_bus (dev cmd value : Z) (s : bus) :
  (pin (u1wire_bit_write value s) = PIO_CONFIG_PULLUP /\
   irq_enabled (u1wire_bit_write value s) = true) /\
  (pin (snd (u1wire_bit_read s)) = PIO_CONFIG_PULLUP /\
   irq_enabled (snd (u1wire_bit_read s)) = true) /\
  (pin (snd (u1wire_ready_p s)) = PIO_CONFIG_PULLUP /\
   irq_enabled (snd (u1wire_ready_p s)) = true) /\
  (pin (u1wire_byte_write value s) = PIO_CONFIG_PULLUP /\
   irq_enabled (u1wire_byte_write value s) = true) /\
  (pin (snd (u1wire_byte_read s)) = PIO_CONFIG_PULLUP /\
   irq_enabled (snd (u1wire_byte_read s)) = true) /\
  (pin (snd (rom_code_read dev s)) = PIO_CONFIG_PULLUP /\
   (fst (rom_code_read dev s) = 1 ->
    irq_enabled (snd (rom_code_read dev s)) = true)) /\
  (pin (snd (init dev s)) = PIO_CONFIG_PULLUP /\
   (fst (init dev s) = 1 -> irq_enabled (snd (init dev s)) = true)) /\
  (pin (snd (command dev cmd s)) = PIO_CONFIG_PULLUP /\
   (fst (command dev cmd s) = 1 ->
    irq_enabled (snd (command dev cmd s)) = true)) /\
  (pin (snd (broadcast cmd s)) = PIO_CONFIG_PULLUP /\
   (fst (broadcast cmd s) = 1 ->
    irq_enabled (snd (broadcast cmd s)) = true)).
Proof.
  assert (Hrom : forall s0,
             pin (snd (rom_code_read dev s0)) = PIO_CONFIG_PULLUP /\
             (fst (rom_code_read dev s0) = 1 ->
              irq_enabled (snd (rom_code_read dev s0)) = true)).
  { intros s0. destruct (Z.eq_dec (fst (reset s0)) 1) as [E|E].
    - rewrite (rom_code_read_ok _ _ _ _ _ dev s0 E). cbn [fst snd].
      destruct (u1wire_byte_write_released U1WIRE_RECALL
                  (read_bytes 8 (rom_code_addr dev)
                     (u1wire_byte_write U1WIRE_READ_ROM (snd (reset s0)))))
        as (Hp & Hi & _). auto.
    - destruct (ops_reset_failed _ _ _ _ _ dev 0 s0 E) as (-> & _).
      split; [now destruct (u1wire_reset_eq s0) as (_&_&_&_&_&Hp)|].
      intros H. contradiction. }
  assert (Hp : snd (u1wire_ready_p s) = snd (u1wire_bit_read s)).
  { unfold u1wire_ready_p. now destruct (u1wire_bit_read s). }
  rewrite u1wire_init_eq.
  rewrite Hp, u1wire_bit_write_eq, u1wire_bit_read_eq, u1wire_byte_read_eq.
  cbn [snd pin irq_enabled].
  destruct (u1wire_byte_write_released value s) as (Hbp & Hbi & _).
  do 5 (split; [split; solve [reflexivity | assumption]|]).
  split; [apply Hrom|]. split; [apply Hrom|]. clear Hrom.
  destruct (Z.eq_dec (fst (reset s)) 1) as [E|E].
  - rewrite (command_ok _ _ _ _ _ dev cmd s E),
      (broadcast_ok _ _ _ _ _ cmd s E). cbn [fst snd].
    destruct (u1wire_byte_write_released cmd
                (write_bytes 8 (rom_code_addr dev)
                   (u1wire_byte_write U1WIRE_MATCH_ROM (snd (reset s)))))
      as (Hp1 & Hi1 & _).
    destruct (u1wire_byte_write_released cmd
                (u1wire_byte_write U1WIRE_SKIP_ROM (snd (reset s))))
      as (Hp2 & Hi2 & _).
    split; split; solve [assumption | intros _; assumption].
  - destruct (ops_reset_failed _ _ _ _ _ dev cmd s E) as (_ & -> & ->).
    destruct (u1wire_reset_eq s) as (_&_&_&_&_&Hpr).
    split; split; solve [assumption | intros; contradiction].
Qed.

Lemma reset_levels_agree (s s' : bus) :
  (forall k, (k < 6)%nat -> sampled s k = sampled s' k) ->
  returned (sampled s) = returned (sampled s') /\
  reset_events (sampled s) = reset_events (sampled s').
Proof.
  intros H. unfold reset_return, reset_events.
  rewrite (H 0%nat), (H 1%nat), (H 2%nat), (H 3%nat), (H 4%nat), (H 5%nat)
    by lia.
  split; reflexivity.
Qed.

(** X11.  The bus traffic of u1wire_broadcast and the value it returns
    depend on nothing but the command and the six levels the reset
    may sample: on two buses that show the same levels, whatever
    their pin, interrupt mask, memory and history, it emits the same
    events and returns the same value.  Two broadcasts in a row on a
    line that behaves the same way produce identical traffic. *)
Theorem broadcast_traffic_repeatable (cmd : Z) (s s' : bus) :
  (forall k, (k < 6)%nat -> sampled s k = sampled s' k) ->
  fst (broadcast cmd s) = fst (broadcast cmd s') /\
  emitted s (snd (broadcast cmd s)) = emitted s' (snd (broadcast cmd s')).
Proof.
  intros H. destruct (reset_levels_agree s s' H) as (Hr & He).
  destruct (ops_return 0 cmd s) as (_ & _ & Hs).
  destruct (ops_return 0 cmd s') as (_ & _ & Hs').
  destruct (u1wire_reset_eq s) as (Hf & _).
  destruct (u1wire_reset_eq s') as (Hf' & _).
  rewrite (emitted_app _ _ _ (broadcast_trace cmd s)).
  rewrite (emitted_app _ _ _ (broadcast_trace cmd s')).
  rewrite Hs, Hs', Hf, Hf', Hr, He. split; reflexivity.
Qed.

(** X12.  A u1wire_broadcast that returns 1 writes after its reset
    the Skip-ROM byte and then the command byte, and nothing else.
    On every path u1wire_broadcast and u1wire_command change no byte
    of memory and take no sample of the line beyond those of their
    reset. *)
Theorem broadcast_sends_skip_rom (dev cmd : Z) (s : bus) :
  0 <= cmd < 256 ->
  fst (broadcast cmd s) = 1 ->
  decode_written_bytes (emitted (snd (reset s)) (snd (broadcast cmd s))) =
    Some [U1WIRE_SKIP_ROM; cmd] /\
  mem (snd (broadcast cmd s)) = mem s /\
  mem (snd (command dev cmd s)) = mem s /\
  samples (snd (broadcast cmd s)) = samples (snd (reset s)) /\
  samples (snd (command dev cmd s)) = samples (snd (reset s)).
Proof.
  intros Hc Hb.
  destruct (ops_return dev cmd s) as (_ & _ & Hs).
  rewrite Hs in Hb.
  destruct (u1wire_reset_eq s) as (_ & _ & _ & _ & Hm & _).
  rewrite (broadcast_ok _ _ _ _ _ cmd s Hb), (command_ok _ _ _ _ _ dev cmd s Hb).
  cbn [snd].
  destruct (write_bytes_eq 8 (rom_code_addr dev)
              (u1wire_byte_write U1WIRE_MATCH_ROM (snd (reset s))))
    as (_ & Hws & Hwm & _).
  destruct (u1wire_byte_write_released cmd
              (u1wire_byte_write U1WIRE_SKIP_ROM (snd (reset s))))
    as (_ & _ & _ & Hs1).
  destruct (u1wire_byte_write_released U1WIRE_SKIP_ROM (snd (reset s)))
    as (_ & _ & _ & Hs2).
  destruct (u1wire_byte_write_released cmd
              (write_bytes 8 (rom_code_addr dev)
                 (u1wire_byte_write U1WIRE_MATCH_ROM (snd (reset s)))))
    as (_ & _ & _ & Hs3).
  destruct (u1wire_byte_write_released U1WIRE_MATCH_ROM (snd (reset s)))
    as (_ & _ & _ & Hs4).
  rewrite !u1wire_byte_write_mem, Hwm, u1wire_byte_write_mem, Hm.
  rewrite Hs1, Hs2, Hs3, Hws, Hs4.
  split; [|repeat split].
  rewrite (emitted_app _ _
             (flat_map write_slot
                (flat_map (bits_lsb 8) [U1WIRE_SKIP_ROM; cmd]))).
  - apply decode_written_bytes_slots.
    repeat constructor; unfold U1WIRE_SKIP_ROM; lia.
  - rewrite !u1wire_byte_write_trace. cbn [flat_map].
    rewrite !flat_map_app, <- !app_assoc, !app_nil_r. reflexivity.
Qed.

(** X13.  A discovery (u1wire_init) that returns 1 writes after its
    reset the Read-ROM byte, takes the 64 samples of eight read slots
    per byte, and writes the Recall byte; it changes no byte of memory
    outside the eight bytes of the rom code of the device. *)
Theorem discovery_traffic_and_frame (dev : Z) (s : bus) :
  fst (init dev s) = 1 ->
  emitted (snd (reset (U1WIRE_RELEASE s))) (snd (init dev s)) =
    flat_map write_slot (bits_lsb 8 U1WIRE_READ_ROM) ++
    flat_map read_slot
      (levels (line s) (samples (snd (reset (U1WIRE_RELEASE s)))) 64) ++
    flat_map write_slot (bits_lsb 8 U1WIRE_RECALL) /\
  samples (snd (init dev s)) =
    (samples (snd (reset (U1WIRE_RELEASE s))) + 64)%nat /\
  (forall a, a < dev \/ dev + 8 <= a ->
             mem (snd (init dev s)) a = mem s a).
Proof.
  rewrite u1wire_init_eq. intros H.
  destruct (ops_return dev 0 (U1WIRE_RELEASE s)) as (Hs & _).
  rewrite Hs in H.
  destruct (u1wire_reset_eq (U1WIRE_RELEASE s)) as (_ & _ & _ & Hl & Hm & _).
  destruct (U1WIRE_RELEASE_eq s) as (Hm0 & Hl0 & _).
  rewrite (rom_code_read_ok _ _ _ _ _ dev _ H). cbn [snd].
  set (sr := snd (reset (U1WIRE_RELEASE s))) in *.
  clearbody sr.
  destruct (u1wire_byte_write_released U1WIRE_READ_ROM sr)
    as (_ & _ & Hl1 & Hs1).
  destruct (u1wire_byte_write_released U1WIRE_RECALL
              (read_bytes 8 (rom_code_addr dev)
                 (u1wire_byte_write U1WIRE_READ_ROM sr)))
    as (_ & _ & _ & Hs2).
  destruct (read_bytes_frame 8 (rom_code_addr dev)
              (u1wire_byte_write U1WIRE_READ_ROM sr))
    as (_ & Hs3 & Hbelow & _).
  split; [|split].
  - apply emitted_app.
    rewrite u1wire_byte_write_trace, read_bytes_trace,
      u1wire_byte_write_trace, Hl1, Hs1, Hl, Hl0.
    now rewrite <- !app_assoc.
  - rewrite Hs2, Hs3, Hs1. reflexivity.
  - intros a Ha. rewrite u1wire_byte_write_mem.
    unfold rom_code_addr in *.
    assert (Hr : mem (read_bytes 8 dev (u1wire_byte_write U1WIRE_READ_ROM sr))
                     a =
                 mem (u1wire_byte_write U1WIRE_READ_ROM sr) a).
    { destruct Ha as [Ha|Ha]; [now apply Hbelow|].
      apply read_bytes_mem_above. lia. }
    rewrite Hr, u1wire_byte_write_mem, Hm, Hm0. reflexivity.
Qed.

(** X17.  A discovery (u1wire_init) that does not return 1 returns
    what its reset returned and leaves the bus as the reset left it:
    no byte of memory changes, so the rom code of the device is as it
    was before the call. *)
Theorem failed_discovery_keeps_rom_code (dev : Z) (s : bus) :
  fst (init dev s) <> 1 ->
  init dev s = reset (U1WIRE_RELEASE s) /\
  mem (snd (init dev s)) = mem s.
Proof.
  rewrite u1wire_init_eq. intros H.
  destruct (ops_return dev 0 (U1WIRE_RELEASE s)) as (Hs & _).
  rewrite Hs in H.
  destruct (ops_reset_failed _ _ _ _ _ dev 0 (U1WIRE_RELEASE s) H)
    as (-> & _).
  destruct (u1wire_reset_eq (U1WIRE_RELEASE s)) as (_ & _ & _ & _ & Hm & _).
  split; [reflexivity|]. rewrite Hm. apply U1WIRE_RELEASE_eq.
Qed.

Hypothesis err_range :
  Forall (fun c => 0 < c <= 128)
         [U1WIRE_ERR_BUS_LOW; U1WIRE_ERR_BUS_HIGH; U1WIRE_ERR_BUS_STUCK;
          U1WIRE_ERR_PRESENCE_SHORT; U1WIRE_ERR_PRESENCE_LONG].
Hypothesis err_distinct :
  NoDup [U1WIRE_ERR_BUS_LOW; U1WIRE_ERR_BUS_HIGH; U1WIRE_ERR_BUS_STUCK;
         U1WIRE_ERR_PRESENCE_SHORT; U1WIRE_ERR_PRESENCE_LONG].

(** The five fault returns are the negated error numbers. *)
Lemma fault_returns_negative :
  to_int8 (- U1WIRE_ERR_BUS_LOW) = - U1WIRE_ERR_BUS_LOW /\
  to_int8 (- U1WIRE_ERR_BUS_HIGH) = - U1WIRE_ERR_BUS_HIGH /\
  to_int8 (- U1WIRE_ERR_BUS_STUCK) = - U1WIRE_ERR_BUS_STUCK /\
  to_int8 (- U1WIRE_ERR_PRESENCE_SHORT) = - U1WIRE_ERR_PRESENCE_SHORT /\
  to_int8 (- U1WIRE_ERR_PRESENCE_LONG) = - U1WIRE_ERR_PRESENCE_LONG /\
  0 < U1WIRE_ERR_BUS_LOW /\ 0 < U1WIRE_ERR_BUS_HIGH /\
  0 < U1WIRE_ERR_BUS_STUCK /\ 0 < U1WIRE_ERR_PRESENCE_SHORT /\
  0 < U1WIRE_ERR_PRESENCE_LONG.
Proof.
  pose proof err_range as R. rewrite !Forall_cons_iff in R.
  rewrite !to_int8_small by lia. repeat split; lia.
Qed.

(** X14.  u1wire_reset returns 1 exactly when the line is high at the
    first check, low while driven, high after the release, low at the
    end of the response window and 10 microseconds later, and high
    again 240 microseconds after that; it returns 0 exactly when the
    first three checks pass and the line is high at the end of the
    response window; it returns the bus-stuck fault exactly when the
    line is still low 10 microseconds after the release. *)
Theorem reset_outcome (s : bus) :
  (fst (reset s) = 1 <->
   sampled s 0 = true /\ sampled s 1 = false /\ sampled s 2 = true /\
   sampled s 3 = false /\ sampled s 4 = false /\ sampled s 5 = true) /\
  (fst (reset s) = 0 <->
   sampled s 0 = true /\ sampled s 1 = false /\ sampled s 2 = true /\
   sampled s 3 = true) /\
  (fst (reset s) = to_int8 (- U1WIRE_ERR_BUS_STUCK) <->
   sampled s 0 = true /\ sampled s 1 = false /\ sampled s 2 = false).
Proof.
  destruct (u1wire_reset_eq s) as (-> & _).
  destruct fault_returns_negative
    as (E1 & E2 & E3 & E4 & E5 & P1 & P2 & P3 & P4 & P5).
  assert (D : U1WIRE_ERR_BUS_STUCK <> U1WIRE_ERR_BUS_LOW /\
              U1WIRE_ERR_BUS_STUCK <> U1WIRE_ERR_BUS_HIGH /\
              U1WIRE_ERR_BUS_STUCK <> U1WIRE_ERR_PRESENCE_SHORT /\
              U1WIRE_ERR_BUS_STUCK <> U1WIRE_ERR_PRESENCE_LONG).
  { pose proof err_distinct as D. rewrite !NoDup_cons_iff in D.
    cbn [In] in D. lia. }
  destruct D as (D1 & D2 & D3 & D4).
  unfold reset_return. rewrite E1, E2, E3, E4, E5.
  destruct (sampled s 0), (sampled s 1), (sampled s 2), (sampled s 3),
    (sampled s 4), (sampled s 5); cbn [negb];
    (split; [|split]); split;
    first [ intros _; repeat split; reflexivity
          | intros H; exfalso; lia
          | intros H; exfalso; intuition discriminate ].
Qed.

(** X15.  u1wire_reset drives the line low for 0 microseconds when it
    finds the bus low, 250 when it finds it stuck high and 500
    otherwise, and its delays never add up to more than 1065
    microseconds.  When it returns 0 or 1 the reset pulse lasted the
    full 500 microseconds; when it returns 1 it took six samples and
    1065 microseconds, of which 560 after the release. *)
Theorem reset_pulse_and_duration (s : bus) :
  low_time (pin s) (emitted s (snd (reset s))) =
    (if negb (sampled s 0) then 0 else if sampled s 1 then 250 else 500) /\
  duration (emitted s (snd (reset s))) <= 1065 /\
  (fst (reset s) = 0 \/ fst (reset s) = 1 ->
   low_time (pin s) (emitted s (snd (reset s))) = 500) /\
  (fst (reset s) = 1 ->
   duration (emitted s (snd (reset s))) = 1065 /\
   samples (snd (reset s)) = (samples s + 6)%nat).
Proof.
  rewrite reset_emitted.
  destruct (u1wire_reset_eq s) as (-> & _ & -> & _).
  destruct fault_returns_negative
    as (E1 & E2 & E3 & E4 & E5 & P1 & P2 & P3 & P4 & P5).
  unfold reset_return, reset_events, reset_samples.
  rewrite E1, E2, E3, E4, E5.
  destruct (pin s), (sampled s 0), (sampled s 1), (sampled s 2),
    (sampled s 3), (sampled s 4), (sampled s 5);
    cbn [negb app low_time duration Z.add Pos.add Pos.succ Pos.add_carry];
    repeat split; intros; try reflexivity; lia.
Qed.

(** X18.  With error numbers whose negations are negative [int8_t]
    values, u1wire_reset, u1wire_rom_code_read, u1wire_init,
    u1wire_command and u1wire_broadcast return what their doc comments
    say: 1, 0 or a negative value, and nothing else. *)
Theorem protocol_return_values (dev cmd : Z) (s : bus) :
  documented_return (fst (reset s)) /\
  documented_return (fst (rom_code_read dev s)) /\
  documented_return (fst (init dev s)) /\
  documented_return (fst (command dev cmd s)) /\
  documented_return (fst (broadcast cmd s)).
Proof.
  assert (Hr : forall s0, documented_return (fst (reset s0))).
  { intros s0. destruct (u1wire_reset_eq s0) as (-> & _).
    destruct fault_returns_negative
      as (E1 & E2 & E3 & E4 & E5 & P1 & P2 & P3 & P4 & P5).
    pose proof err_range as R. rewrite !Forall_cons_iff in R.
    unfold reset_return, documented_return. rewrite E1, E2, E3, E4, E5.
    destruct (sampled s0 0), (sampled s0 1), (sampled s0 2), (sampled s0 3),
      (sampled s0 4), (sampled s0 5); cbn [negb]; lia. }
  rewrite u1wire_init_eq.
  destruct (ops_return dev cmd s) as (-> & -> & ->).
  destruct (ops_return dev cmd (U1WIRE_RELEASE s)) as (-> & _).
  repeat split; apply Hr.
Qed.

End ResetPaths.

(** *** Concrete runs of the further properties *)

Lemma loopback_idle_bus (bits : list bool) : loopback (idle_bus bits) bits.
Proof. intros k Hk. cbn. now apply nth_indep. Qed.

Lemma byte_range_check (l : list Z) :
  forallb (fun b => (0 <=? b) && (b <? 256)) l = true ->
  Forall (fun b => 0 <= b < 256) l.
Proof.
  rewrite forallb_forall, Forall_forall. intros H b Hb.
  specialize (H b Hb). apply andb_prop in H. destruct H as [H1 H2].
  apply Z.leb_le in H1. apply Z.ltb_lt in H2. lia.
Qed.

(** X4, for a buffer of three bytes. *)
Lemma transfer_duration_run :
  duration (emitted (idle_bus []) (u1wire_bit_write 1 (idle_bus []))) = 58 /\
  duration (emitted (idle_bus []) (u1wire_byte_write 0xa5 (idle_bus [])))
  = 464 /\
  duration (emitted (idle_bus []) (snd (u1wire_byte_read (idle_bus []))))
  = 536 /\
  duration (emitted (idle_bus []) (snd (u1wire_write 0 3 (idle_bus []))))
  = 464 * 3 /\
  duration (emitted (idle_bus []) (snd (u1wire_read 0 3 (idle_bus []))))
  = 536 * 3.
Proof. apply (transfer_duration 0 3 1 (idle_bus [])). lia. Defined.

(** X5, for a buffer of three bytes. *)
Lemma transfers_keep_critical_sections_run :
  critical_ok (emitted (idle_bus []) (u1wire_bit_write 1 (idle_bus []))) /\
  critical_ok (emitted (idle_bus []) (snd (u1wire_bit_read (idle_bus [])))) /\
  critical_ok (emitted (idle_bus []) (snd (u1wire_ready_p (idle_bus [])))) /\
  critical_ok (emitted (idle_bus []) (u1wire_byte_write 1 (idle_bus []))) /\
  critical_ok (emitted (idle_bus []) (snd (u1wire_byte_read (idle_bus [])))) /\
  critical_ok (emitted (idle_bus []) (snd (u1wire_write 0 3 (idle_bus [])))) /\
  critical_ok (emitted (idle_bus []) (snd (u1wire_read 0 3 (idle_bus [])))).
Proof.
  apply (transfers_keep_critical_sections 0 3 1 (idle_bus [])). lia.
Defined.

(** X6, reading two bytes to address 0x10 from a line that plays the
    bits of 0xab and 0xcd: the two bytes land at 0x10 and 0x11. *)
Lemma u1wire_read_stores_ab_cd :
  mem_bytes
    (mem (snd (u1wire_read 0x10 2
                 (idle_bus (flat_map (bits_lsb 8) [0xab; 0xcd])))))
    0x10 (Z.to_nat 2) = [0xab; 0xcd] /\
  mem (snd (u1wire_read 0x10 2
              (idle_bus (flat_map (bits_lsb 8) [0xab; 0xcd])))) 0x12 = 0.
Proof.
  destruct (u1wire_read_stores_in_buffer 0x10 2
              (idle_bus (flat_map (bits_lsb 8) [0xab; 0xcd])))
    as (Hb & Hf & _); [lia|].
  split.
  - rewrite Hb. vm_compute. reflexivity.
  - rewrite Hf by lia. reflexivity.
Defined.

(** X7, writing the three bytes 0x12, 0x34, 0x56 held at address 0. *)
Lemma u1wire_write_sends_12_34_56 :
  decode_written_bytes
    (emitted (stored_bus [0x12; 0x34; 0x56] [])
       (snd (u1wire_write 0 3 (stored_bus [0x12; 0x34; 0x56] [])))) =
  Some [0x12; 0x34; 0x56].
Proof.
  destruct (u1wire_write_sends_buffer 0 3 (stored_bus [0x12; 0x34; 0x56] []))
    as (Hd & _).
  - lia.
  - apply byte_range_check. vm_compute. reflexivity.
  - rewrite Hd. vm_compute. reflexivity.
Defined.

(** X8, three bytes written from address 0 and read back at address
    0x20 on a line that plays back the bits written. *)
Lemma buffer_write_read_loopback_run :
  mem_bytes
    (mem (snd (u1wire_read 0x20 3
                 (idle_bus (flat_map (bits_lsb 8) [0x12; 0x34; 0x56])))))
    0x20 (Z.to_nat 3) = [0x12; 0x34; 0x56].
Proof.
  rewrite (buffer_write_read_loopback 0 0x20 3
             (stored_bus [0x12; 0x34; 0x56] [])
             (idle_bus (flat_map (bits_lsb 8) [0x12; 0x34; 0x56]))
             (flat_map (bits_lsb 8) [0x12; 0x34; 0x56])).
  - vm_compute. reflexivity.
  - lia.
  - apply byte_range_check. vm_compute. reflexivity.
  - vm_compute. reflexivity.
  - apply loopback_idle_bus.
Defined.

(** X11, two broadcasts in a row on a line where a device is present
    at both resets: same value returned, same traffic. *)
Lemma broadcast_twice_same_traffic :
  fst (u1wire_broadcast 1 2 3 4 5 0x44 (idle_bus (presence ++ presence))) =
  fst (u1wire_broadcast 1 2 3 4 5 0x44
         (snd (u1wire_broadcast 1 2 3 4 5 0x44
                 (idle_bus (presence ++ presence))))) /\
  emitted (idle_bus (presence ++ presence))
    (snd (u1wire_broadcast 1 2 3 4 5 0x44 (idle_bus (presence ++ presence))))
  =
  emitted
    (snd (u1wire_broadcast 1 2 3 4 5 0x44 (idle_bus (presence ++ presence))))
    (snd (u1wire_broadcast 1 2 3 4 5 0x44
            (snd (u1wire_broadcast 1 2 3 4 5 0x44
                    (idle_bus (presence ++ presence)))))).
Proof.
  apply (broadcast_traffic_repeatable 1 2 3 4 5 0x44).
  intros k Hk.
  do 6 (destruct k as [|k]; [vm_compute; reflexivity|]).
  lia.
Defined.

(** X12, a broadcast of 0x44 to a device that is present. *)
Lemma broadcast_sends_skip_rom_run :
  decode_written_bytes
    (emitted (snd (u1wire_reset 1 2 3 4 5 (idle_bus presence)))
       (snd (u1wire_broadcast 1 2 3 4 5 0x44 (idle_bus presence)))) =
  Some [U1WIRE_SKIP_ROM; 0x44].
Proof.
  destruct (broadcast_sends_skip_rom 1 2 3 4 5 0 0x44 (idle_bus presence))
    as (Hd & _).
  - lia.
  - vm_compute. reflexivity.
  - exact Hd.
Defined.

(** X13, the discovery of the device that answers [rom_28]. *)
Lemma discovery_traffic_and_frame_run :
  samples (snd (u1wire_init 1 2 3 4 5 0x100 discovery_bus)) = 70%nat /\
  mem (snd (u1wire_init 1 2 3 4 5 0x100 discovery_bus)) 0x108 = 0.
Proof.
  destruct (discovery_traffic_and_frame 1 2 3 4 5 0x100 discovery_bus)
    as (_ & Hs & Hf).
  - vm_compute. reflexivity.
  - split.
    + rewrite Hs. vm_compute. reflexivity.
    + rewrite Hf by lia. reflexivity.
Defined.

(** X14, with error numbers 1 to 5, on a line where a device answers
    with a presence pulse of the right length. *)
Lemma reset_outcome_run :
  fst (u1wire_reset 1 2 3 4 5 (idle_bus presence)) = 1.
Proof.
  destruct (reset_outcome 1 2 3 4 5 err_range_1_5 err_distinct_1_5
              (idle_bus presence)) as (H & _).
  apply H. repeat split.
Defined.

(** X15, with error numbers 1 to 5, on the same line. *)
Lemma reset_pulse_and_duration_run :
  low_time PIO_CONFIG_PULLUP
    (emitted (idle_bus presence)
       (snd (u1wire_reset 1 2 3 4 5 (idle_bus presence)))) = 500 /\
  duration
    (emitted (idle_bus presence)
       (snd (u1wire_reset 1 2 3 4 5 (idle_bus presence)))) = 1065.
Proof.
  destruct (reset_pulse_and_duration 1 2 3 4 5 err_range_1_5
              (idle_bus presence)) as (_ & _ & Hl & Hd).
  assert (H1 : fst (u1wire_reset 1 2 3 4 5 (idle_bus presence)) = 1)
    by (vm_compute; reflexivity).
  split.
  - apply Hl. right. exact H1.
  - apply Hd. exact H1.
Defined.

(** X16, at sizes 100 and 200. *)
Lemma buffer_count_returned_run :
  fst (u1wire_read 0 100 (idle_bus [])) = 100 /\
  fst (u1wire_write 0 200 (idle_bus [])) = -56.
Proof.
  destruct (buffer_count_returned 0 100 (idle_bus [])) as (Hr & _); [lia|].
  destruct (buffer_count_returned 0 200 (idle_bus [])) as (_ & Hw); [lia|].
  split; assumption.
Defined.

(** X17, a discovery on a line held low. *)
Lemma failed_discovery_keeps_rom_code_run :
  u1wire_init 1 2 3 4 5 0 (stored_bus [0x28; 0x01] [false]) =
  u1wire_reset 1 2 3 4 5 (U1WIRE_RELEASE (stored_bus [0x28; 0x01] [false])) /\
  mem (snd (u1wire_init 1 2 3 4 5 0 (stored_bus [0x28; 0x01] [false]))) =
  mem (stored_bus [0x28; 0x01] [false]).
Proof.
  apply (failed_discovery_keeps_rom_code 1 2 3 4 5 0
           (stored_bus [0x28; 0x01] [false])).
  vm_compute. discriminate.
Defined.

(** X18, with error numbers 1 to 5, on a line held low. *)
Lemma protocol_return_values_run :
  documented_return (fst (u1wire_reset 1 2 3 4 5 (idle_bus [false]))) /\
  documented_return
    (fst (u1wire_rom_code_read 1 2 3 4 5 0 (idle_bus [false]))) /\
  documented_return (fst (u1wire_init 1 2 3 4 5 0 (idle_bus [false]))) /\
  documented_return
    (fst (u1wire_command 1 2 3 4 5 0 0x44 (idle_bus [false]))) /\
  documented_return (fst (u1wire_broadcast 1 2 3 4 5 0x44 (idle_bus [false]))).
Proof.
  apply (protocol_return_values 1 2 3 4 5 err_range_1_5 0 0x44
           (idle_bus [false])).
Defined.
